(** * Imagematch: the actor index, its builder and the request handlers

    A shallow embedding of

    - [backend/app/services/search.py]   (class [ActorIndex]),
    - [backend/app/main.py]              (the two POST handlers),
    - [backend/scripts/build_actor_index.py] ([compute_actor_vectors], [main]),

    followed by the properties of the specification that concern them.

    Numbers.  The Python code computes in numpy [float32].  The embedding is
    written once over an interface [NumpyOps] that names the operations the
    code uses (addition, multiplication, division, negation, square root,
    the constant [1e-12], comparison, [np.argsort]).  Statements that only
    depend on control flow, lengths and ordering hold for every
    implementation of the interface; statements about norms and cosine
    scores are proved for the instance over the real numbers, that is, for
    the arithmetic the code approximates, with rounding left out. *)

From Stdlib.Strings Require Import String Ascii Byte.
From Stdlib Require Import List ZArith Lia Bool Arith.
From Stdlib Require Import Sorted Permutation.
From Stdlib Require OrderedTypeEx.
From Stdlib Require Import DecimalString.
From Stdlib Require Import Reals Lra.
Import ListNotations.

Set Implicit Arguments.

Local Open Scope string_scope.
Local Open Scope list_scope.
Local Open Scope Z_scope.

(** ** Python values shared by the three files *)

(** The exception classes the handlers tell apart.  [FileNotFoundError] and
    [ValueError] are caught by name; every other class behaves the same in
    all [except] clauses of the repository. *)
Inductive exn_class : Type :=
| FileNotFoundError
| ValueError
| AssertionError
| IndexError
| OtherException.

Record exn : Type := Exn { exn_cls : exn_class; exn_msg : string }.

(** The outcome of a Python call: a value, or a raised exception. *)
Inductive result (A : Type) : Type :=
| Ok (a : A)
| Raise (e : exn).
Arguments Ok {A} a.
Arguments Raise {A} e.


Definition is_file_not_found (e : exn) : bool :=
  match exn_cls e with FileNotFoundError => true | _ => false end.

(** [l[:k]] for a Python list and an integer [k]: a negative [k] counts
    from the end. *)
Definition py_take {A} (k : Z) (l : list A) : list A :=
  if k <? 0 then firstn (length l - Z.to_nat (- k)) l
  else firstn (Z.to_nat k) l.

(** ** The numeric interface *)

Unset Implicit Arguments.

Class NumpyOps (F : Type) : Type := {
  f_zero : F;
  f_add : F -> F -> F;
  f_mul : F -> F -> F;
  f_div : F -> F -> F;
  f_neg : F -> F;
  f_sqrt : F -> F;
  f_eps : F;                      (* the literal 1e-12 *)
  f_of_nat : nat -> F;            (* the count [np.mean] divides by *)
  f_leb : F -> F -> bool;         (* [a <= b] *)
  argsort : list F -> list nat    (* [np.argsort], ascending *)
}.

(** What the code relies on from [np.argsort] and from negation: the result
    is a permutation of the positions, keys ascend along it, and negating
    reverses the order. *)
Class NumpyLaws (F : Type) {ops : NumpyOps F} : Prop := {
  argsort_perm : forall l : list F, Permutation (argsort l) (seq 0 (length l));
  argsort_sorted : forall l : list F,
    StronglySorted
      (fun i j => f_leb (nth i l f_zero) (nth j l f_zero) = true) (argsort l);
  f_neg_antitone : forall a b : F,
    f_leb (f_neg a) (f_neg b) = true -> f_leb b a = true
}.

Arguments NumpyLaws F {ops}.

Set Implicit Arguments.

Section Vectors.
Context {F : Type} `{NumpyOps F}.

Definition vec : Type := list F.

(** A two-dimensional array of shape [(length rows, ncols)]. *)
Record matrix : Type := Matrix { ncols : nat; rows : list vec }.

Definition nrows (m : matrix) : nat := length (rows m).


Definition sum_sq (v : vec) : F :=
  fold_left (fun acc x => f_add acc (f_mul x x)) v f_zero.

(** [np.linalg.norm(v)] *)
Definition norm (v : vec) : F := f_sqrt (sum_sq v).

(** [v / (np.linalg.norm(v) + 1e-12)] *)
Definition normalize (v : vec) : vec :=
  map (fun x => f_div x (f_add (norm v) f_eps)) v.

Definition dot (a b : vec) : F :=
  fold_left (fun acc p => f_add acc (f_mul (fst p) (snd p))) (combine a b) f_zero.

(** [m @ q] for a matrix and a one-dimensional [q]; numpy raises
    [ValueError] when the inner dimensions differ. *)
Definition matvec (m : matrix) (q : vec) : result (list F) :=
  if Nat.eqb (length q) (ncols m)
  then Ok (map (fun r => dot r q) (rows m))
  else Raise (Exn ValueError "matmul: Input operand 1 has a mismatch in its core dimension 0").

(** [emb / (np.linalg.norm(emb, axis=1, keepdims=True) + 1e-12)] *)
Definition normalize_rows (m : matrix) : matrix :=
  Matrix (ncols m) (map normalize (rows m)).

End Vectors.

Arguments matrix F : clear implicits.
Arguments vec F : clear implicits.

(** ** search.py *)

(** One entry of [metadata.json].  [None] in [name] stands for an absent
    key; [None] in [image_rel] for an absent key or JSON [null]. *)
Record Meta : Type := mkMeta {
  name : option string;
  image_rel : option string;
  cluster : option nat
}.

Section Search.
Context {F : Type} `{NumpyOps F}.

(** The two artifacts [EMB_PATH] and [META_PATH]; [None] when the path
    does not exist. *)
Record Disk : Type := mkDisk {
  embeddings_npy : option (matrix F);
  metadata_json : option (list Meta)
}.

Record ActorIndex : Type := mkActorIndex {
  _loaded : bool;
  _emb : option (matrix F);
  _meta : option (list Meta)
}.

(** [ActorIndex.__init__] *)
Definition INDEX0 : ActorIndex := mkActorIndex false None None.

Definition index_not_built : exn :=
  Exn FileNotFoundError
    "Actor index not built. Run the index builder script to create embeddings and metadata.".

Definition row_count_mismatch : exn :=
  Exn ValueError "Metadata and embeddings row counts do not match".

Definition ensure_loaded (d : Disk) (self : ActorIndex) : ActorIndex * result unit :=
  if _loaded self then (self, Ok tt)
  else
    match embeddings_npy d, metadata_json d with
    | Some e, Some m =>
        let emb := normalize_rows e in
        let self1 := mkActorIndex (_loaded self) (Some emb) (_meta self) in
        let self2 := mkActorIndex (_loaded self1) (_emb self1) (Some m) in
        if negb (Nat.eqb (length m) (nrows emb))
        then (self2, Raise row_count_mismatch)
        else (mkActorIndex true (_emb self2) (_meta self2), Ok tt)
    | _, _ => (self, Raise index_not_built)
    end.

Definition topk (d : Disk) (self : ActorIndex) (query_emb : vec F) (k : Z)
  : ActorIndex * result (list (nat * F)) :=
  let '(self, r) := ensure_loaded d self in
  match r with
  | Raise e => (self, Raise e)
  | Ok _ =>
      match _emb self with
      | None => (self, Raise (Exn AssertionError EmptyString))
      | Some emb =>
          let q := normalize query_emb in
          match matvec emb q with
          | Raise e => (self, Raise e)
          | Ok sims =>
              let idx := py_take k (argsort (map f_neg sims)) in
              (self, Ok (map (fun i => (i, nth i sims f_zero)) idx))
          end
      end
  end.

Definition info (self : ActorIndex) (idx : nat) : result Meta :=
  match _meta self with
  | None => Raise (Exn AssertionError EmptyString)
  | Some meta =>
      match nth_error meta idx with
      | Some m => Ok m
      | None => Raise (Exn IndexError "list index out of range")
      end
  end.

(** A sequence of [topk] calls against the same files, one after the
    other on the shared [INDEX] object; the outcomes in call order. *)
Fixpoint run_queries (d : Disk) (self : ActorIndex) (qs : list (vec F * Z))
  : ActorIndex * list (result (list (nat * F))) :=
  match qs with
  | [] => (self, [])
  | (q, k) :: qs' =>
      let '(self1, r) := topk d self q k in
      let '(self2, rs) := run_queries d self1 qs' in
      (self2, r :: rs)
  end.

(** The scores [sims] that [topk] computes for a query against [emb]. *)
Definition sims_of (emb : matrix F) (q : vec F) : list F :=
  map (fun r => dot r (normalize q)) (rows emb).

End Search.

Arguments Disk F : clear implicits.
Arguments ActorIndex F : clear implicits.

(** ** models/schemas.py *)

Module schemas.
Record MatchResult (F : Type) : Type := mkMatchResult {
  name : string;
  score : F;
  image_url : option string
}.
Record MatchResponse (F : Type) : Type := mkMatchResponse {
  results : list (MatchResult F)
}.
Arguments mkMatchResult {F} name score image_url.
Arguments mkMatchResponse {F} results.
End schemas.

(** ** main.py *)

(** What leaves a handler: an [HTTPException] it raised, its return value
    (status 200), or an exception nobody caught, which the server turns
    into status 500. *)
Inductive http (A : Type) : Type :=
| HTTPException (status_code : Z) (detail : string)
| Return (a : A)
| Uncaught (e : exn).
Arguments HTTPException {A} status_code detail.
Arguments Return {A} a.
Arguments Uncaught {A} e.

Definition status {A} (r : http A) : Z :=
  match r with
  | HTTPException c _ => c
  | Return _ => 200
  | Uncaught _ => 500
  end.

Record UploadFile : Type := mkUploadFile {
  content_type : option string;
  filename : option string;
  contents : list byte              (* what [await file.read()] yields *)
}.

(** [file.content_type is None or not file.content_type.startswith("image/")] *)
Definition not_an_image (f : UploadFile) : bool :=
  match content_type f with
  | None => true
  | Some ct => negb (String.prefix "image/" ct)
  end.

(** [len(contents) > 10 * 1024 * 1024] *)
Definition too_large (contents : list byte) : bool :=
  Z.of_nat (length contents) >? 10 * 1024 * 1024.

(** [f"Actor {idx}"] *)
Definition actor_label (idx : nat) : string :=
  String.append "Actor " (NilEmpty.string_of_uint (Nat.to_uint idx)).

Section Handlers.
Context {F : Type} `{NumpyOps F}.

(** [services.embeddings.image_embedding]: the pretrained encoder, a
    black box from bytes to a vector that may raise. *)
Variable image_embedding : list byte -> result (vec F).

(** One pass of the body of [for idx, score in top], shared by both
    handlers: look the row up and shape the entry. *)
Definition match_entry (INDEX : ActorIndex F) (idx : nat) (score : F)
  : result (schemas.MatchResult F) :=
  match info INDEX idx with
  | Raise e => Raise e
  | Ok i =>
      let image_url :=
        match image_rel i with
        | Some rel =>
            if String.eqb rel EmptyString then None
            else Some (String.append "/actors/" rel)
        | None => None
        end in
      Ok (schemas.mkMatchResult
            (match name i with Some n => n | None => actor_label idx end)
            score image_url)
  end.

Fixpoint results_loop (INDEX : ActorIndex F) (top : list (nat * F))
         (results : list (schemas.MatchResult F))
  : result (list (schemas.MatchResult F)) :=
  match top with
  | [] => Ok results
  | (idx, score) :: top' =>
      match match_entry INDEX idx score with
      | Raise e => Raise e
      | Ok r => results_loop INDEX top' (results ++ [r])
      end
  end.

(** [POST /match-actors], from the first line of the body on. *)
Definition match_actors (d : Disk F) (INDEX : ActorIndex F)
           (file : UploadFile) (top_k : Z)
  : ActorIndex F * http (schemas.MatchResponse F) :=
  if not_an_image file
  then (INDEX, HTTPException 400 "이미지 파일을 업로드하세요")
  else
    let contents := contents file in
    if too_large contents
    then (INDEX, HTTPException 413 "파일이 너무 큽니다 (최대 10MB)")
    else
      match image_embedding contents with
      | Raise e =>
          (INDEX, HTTPException 400 (String.append "이미지 처리 실패: " (exn_msg e)))
      | Ok query =>
          let '(INDEX, r) := topk d INDEX query top_k in
          match r with
          | Raise e =>
              if is_file_not_found e
              then (INDEX, HTTPException 503 (exn_msg e))
              else (INDEX, HTTPException 500 (String.append "검색 실패: " (exn_msg e)))
          | Ok top =>
              match results_loop INDEX top [] with
              | Raise e => (INDEX, Uncaught e)
              | Ok results => (INDEX, Return (schemas.mkMatchResponse results))
              end
          end
      end.

(** One element of ["items"] in the batch response. *)
Inductive batch_item : Type :=
| ErrorItem (filename : option string) (error : string)
| ResultsItem (filename : option string) (results : list (schemas.MatchResult F)).

Definition has_error (it : batch_item) : bool :=
  match it with ErrorItem _ _ => true | ResultsItem _ _ => false end.

Definition item_filename (it : batch_item) : option string :=
  match it with ErrorItem n _ => n | ResultsItem n _ => n end.




(** The [try] block of the batch loop for one file. *)
Definition batch_try (d : Disk F) (INDEX : ActorIndex F)
           (contents : list byte) (top_k : Z)
  : ActorIndex F * result (list (schemas.MatchResult F)) :=
  match image_embedding contents with
  | Raise e => (INDEX, Raise e)
  | Ok q =>
      let '(INDEX, r) := topk d INDEX q top_k in
      match r with
      | Raise e => (INDEX, Raise e)
      | Ok top => (INDEX, results_loop INDEX top [])
      end
  end.

(** [for f in files: ...] with the list [outputs] built so far. *)
Fixpoint batch_loop (d : Disk F) (INDEX : ActorIndex F)
         (files : list UploadFile) (top_k : Z) (outputs : list batch_item)
  : ActorIndex F * http (list batch_item) :=
  match files with
  | [] => (INDEX, Return outputs)
  | f :: files' =>
      if not_an_image f
      then batch_loop d INDEX files' top_k
             (outputs ++ [ErrorItem (filename f) "이미지 아님"])
      else
        let contents := contents f in
        if too_large contents
        then batch_loop d INDEX files' top_k
               (outputs ++ [ErrorItem (filename f) "파일이 너무 큼(>10MB)"])
        else
          let '(INDEX, r) := batch_try d INDEX contents top_k in
          match r with
          | Ok items =>
              batch_loop d INDEX files' top_k
                (outputs ++ [ResultsItem (filename f) items])
          | Raise e =>
              if is_file_not_found e
              then (INDEX, HTTPException 503 (exn_msg e))
              else batch_loop d INDEX files' top_k
                     (outputs ++ [ErrorItem (filename f)
                                    (String.append "처리 실패: " (exn_msg e))])
          end
  end.

(** [POST /match-actors-batch] *)
Definition match_actors_batch (d : Disk F) (INDEX : ActorIndex F)
           (files : list UploadFile) (top_k : Z)
  : ActorIndex F * http (list batch_item) :=
  match files with
  | [] => (INDEX, HTTPException 400 "이미지 파일을 업로드하세요")
  | _ => batch_loop d INDEX files top_k []
  end.

End Handlers.

Arguments batch_item F : clear implicits.

(** ** scripts/build_actor_index.py *)

Definition Path : Type := string.

(** [str.replace(' ', '_')] *)
Fixpoint replace_spaces (s : string) : string :=
  match s with
  | EmptyString => EmptyString
  | String c s' =>
      String (if Ascii.eqb c " "%char then "_"%char else c) (replace_spaces s')
  end.

(** [sorted(groups.items())]: the keys of a dict are distinct, so the pairs
    are ordered by their names alone; Python compares [str] by code point,
    which on UTF-8 text is the byte order of [String.leb]. *)
Fixpoint insert_item {A} (x : string * A) (l : list (string * A)) : list (string * A) :=
  match l with
  | [] => [x]
  | y :: l' => if String.leb (fst x) (fst y) then x :: l else y :: insert_item x l'
  end.

Definition sorted_items {A} (items : list (string * A)) : list (string * A) :=
  fold_right insert_item [] items.

Section Builder.
Context {F : Type} `{NumpyOps F}.

Variable image_embedding : list byte -> result (vec F).

(** [open(p, "rb").read()] *)
Variable read_bytes : Path -> result (list byte).
(** [p.suffix.lower()] *)
Variable suffix_lower : Path -> string.
(** Whether [Image.open(p).save(target)] goes through. *)
Variable save_image : Path -> bool.
(** [KMeans(n_clusters, n_init=10, random_state=42).fit_predict(X)],
    including the import of sklearn. *)
Variable fit_predict : Z -> matrix F -> result (list nat).

(** [np.stack(arrays, axis=0)] for one-dimensional arrays. *)
Definition stack (arrays : list (vec F)) : result (matrix F) :=
  match arrays with
  | [] => Raise (Exn ValueError "need at least one array to stack")
  | a :: _ =>
      if forallb (fun b => Nat.eqb (length b) (length a)) arrays
      then Ok (Matrix (length a) arrays)
      else Raise (Exn ValueError "all input arrays must have the same shape")
  end.

Definition vec_add (a b : vec F) : vec F :=
  map (fun p => f_add (fst p) (snd p)) (combine a b).

(** [np.mean(X, axis=0)] *)
Definition mean_axis0 (X : matrix F) : vec F :=
  map (fun x => f_div x (f_of_nat (nrows X)))
      (fold_left vec_add (rows X) (repeat f_zero (ncols X))).

(** The names present in [ACTOR_IMAGES_DIR]. *)
Definition images_dir : Type := list string.

Definition exists_in (target : string) (dir : images_dir) : bool :=
  existsb (String.eqb target) dir.

(** The state of the loop over [paths[:20]]. *)
Record sampling : Type := mkSampling {
  embs : list (vec F);
  rep_rel : option string;
  actors_dir : images_dir
}.

(** The body of [for i, p in enumerate(paths[:20])]. *)
Definition sample_one (name : string) (p : Path) (st : sampling) : sampling :=
  match read_bytes p with
  | Raise _ => st
  | Ok bytes =>
      match image_embedding bytes with
      | Raise _ => st
      | Ok emb =>
          let embs' := embs st ++ [emb] in
          match rep_rel st with
          | Some _ => mkSampling embs' (rep_rel st) (actors_dir st)
          | None =>
              let target := String.append (replace_spaces name) (suffix_lower p) in
              let dir1 :=
                if exists_in target (actors_dir st) then actors_dir st
                else if save_image p then target :: actors_dir st
                     else actors_dir st in
              let rep := if exists_in target dir1 then Some target else None in
              mkSampling embs' rep dir1
          end
      end
  end.

Definition sample_paths (name : string) (paths : list Path) (dir : images_dir)
  : sampling :=
  fold_left (fun st p => sample_one name p st) (firstn 20 paths)
            (mkSampling [] None dir).

(** The two lists [vectors] and [meta] the outer loop appends to. *)
Record output : Type := mkOutput {
  vectors : list (vec F);
  meta : list Meta
}.

(** [mean_vec = np.mean(X, axis=0)], renormalised and appended. *)
Definition append_mean (name : string) (rep : option string) (X : matrix F)
           (out : output) : output :=
  let mean_vec := normalize (mean_axis0 X) in
  mkOutput (vectors out ++ [mean_vec])
           (meta out ++ [mkMeta (Some name) rep None]).

(** [X[labels == c]] *)
Definition members (X : matrix F) (labels : list nat) (c : nat) : matrix F :=
  Matrix (ncols X)
         (map fst (filter (fun rl => Nat.eqb (snd rl) c) (combine (rows X) labels))).

(** The body of [for c in range(clusters_per_actor)]. *)
Definition append_cluster (name : string) (rep : option string) (X : matrix F)
           (labels : list nat) (out : output) (c : nat) : output :=
  let m := members X labels c in
  if Nat.eqb (nrows m * ncols m) 0 then out
  else
    let centroid := normalize (mean_axis0 m) in
    mkOutput (vectors out ++ [centroid])
             (meta out ++ [mkMeta (Some name) rep (Some c)]).

(** The body of [for name, paths in sorted(groups.items())]; an exception
    of [np.stack] leaves the function. *)
Definition actor_step (clusters_per_actor : Z) (name : string) (paths : list Path)
           (out : output) (dir : images_dir) : result (output * images_dir) :=
  match paths with
  | [] => Ok (out, dir)
  | _ =>
      let st := sample_paths name paths dir in
      match embs st with
      | [] => Ok (out, actors_dir st)
      | _ =>
          match stack (embs st) with
          | Raise e => Raise e
          | Ok X =>
              if (clusters_per_actor >? 1)
                 && (Z.of_nat (length (embs st)) >=? clusters_per_actor)
              then
                match fit_predict clusters_per_actor X with
                | Ok labels =>
                    if Nat.eqb (length labels) (nrows X)
                    then Ok (fold_left (append_cluster name (rep_rel st) X labels)
                                       (seq 0 (Z.to_nat clusters_per_actor)) out,
                             actors_dir st)
                    else Ok (append_mean name (rep_rel st) X out, actors_dir st)
                | Raise _ =>
                    Ok (append_mean name (rep_rel st) X out, actors_dir st)
                end
              else Ok (append_mean name (rep_rel st) X out, actors_dir st)
          end
      end
  end.

Fixpoint actors_loop (clusters_per_actor : Z) (items : list (string * list Path))
         (out : output) (dir : images_dir) : result (output * images_dir) :=
  match items with
  | [] => Ok (out, dir)
  | (name, paths) :: items' =>
      match actor_step clusters_per_actor name paths out dir with
      | Raise e => Raise e
      | Ok (out', dir') => actors_loop clusters_per_actor items' out' dir'
      end
  end.

Definition compute_actor_vectors (groups : list (string * list Path))
           (clusters_per_actor : Z) (dir : images_dir)
  : result (matrix F * list Meta * images_dir) :=
  match actors_loop clusters_per_actor (sorted_items groups) (mkOutput [] []) dir with
  | Raise e => Raise e
  | Ok (out, dir') =>
      match stack (vectors out) with
      | Raise e => Raise e
      | Ok emb => Ok (emb, meta out, dir')
      end
  end.

(** The parsed command line. *)
Record Args : Type := mkArgs {
  dataset_dir : option string;
  csv : option string;
  clusters_per_actor_arg : Z
}.

(** Truth value of an optional [str] argument. *)
Definition given (a : option string) : bool :=
  match a with
  | Some s => negb (String.eqb s EmptyString)
  | None => false
  end.

(** [iter_folder] and [iter_csv] read the file system; [main] only needs
    the groups they hand back. *)
Variable iter_folder : Path -> list (string * list Path).
Variable iter_csv : Path -> list (string * list Path).

Definition usage_error : string := "--dataset-dir 또는 --csv 중 하나는 필수입니다".
Definition no_images_error : string := "데이터셋에서 이미지를 찾지 못했습니다".

Inductive outcome : Type :=
| SystemExit (message : string)
| Crashed (e : exn)
| Saved (d : Disk F) (dir : images_dir).

Definition main (args : Args) (dir : images_dir) : outcome :=
  let groups :=
    if given (dataset_dir args)
    then Some (iter_folder (match dataset_dir args with Some s => s | None => EmptyString end))
    else if given (csv args)
         then Some (iter_csv (match csv args with Some s => s | None => EmptyString end))
         else None in
  match groups with
  | None => SystemExit "--dataset-dir 또는 --csv 중 하나는 필수입니다"
  | Some [] => SystemExit "데이터셋에서 이미지를 찾지 못했습니다"
  | Some groups =>
      match compute_actor_vectors groups (Z.max 1 (clusters_per_actor_arg args)) dir with
      | Raise e => Crashed e
      | Ok (emb, meta, dir') => Saved (mkDisk (Some emb) (Some meta)) dir'
      end
  end.

End Builder.

(** ** The builder's output in the words of the specification *)

Section BuilderSpec.
Context {F : Type} {ops : NumpyOps F}.
Variable image_embedding : list byte -> result (vec F).
Variable read_bytes : Path -> result (list byte).

(** The embedding of the image at [p], when the file can be read and
    encoded. *)
Definition embed_path (p : Path) : option (vec F) :=
  match read_bytes p with
  | Ok bytes =>
      match image_embedding bytes with
      | Ok emb => Some emb
      | Raise _ => None
      end
  | Raise _ => None
  end.

(** Section 4.3: the first 20 images in enumeration order, those whose
    embedding fails left out. *)
Definition successes (paths : list Path) : list (vec F) :=
  flat_map (fun p => match embed_path p with Some emb => [emb] | None => [] end)
           (firstn 20 paths).



(** Two entries of [groups.items()], respectively of the metadata list, in
    name order. *)
Definition item_le {A} (a b : string * A) : Prop :=
  String.leb (fst a) (fst b) = true.

Definition meta_le (a b : Meta) : Prop :=
  match name a, name b with
  | Some x, Some y => String.leb x y = true
  | _, _ => False
  end.

(** What one entity contributes: rows and entries in equal number, every
    entry under the entity's name, every row a renormalised mean over some
    of its successes. *)
Definition entity_pair (nm : string) (paths : list Path) (row : vec F) (m : Meta) : Prop :=
  name m = Some nm
  /\ exists (D : nat) (vs : list (vec F)),
      vs <> []
      /\ incl vs (successes paths)
      /\ row = normalize (mean_axis0 (Matrix D vs)).

(** A vector and a metadata entry that belong together: the entry names
    an entity of [groups], and the vector is the renormalised mean of some
    of that entity's successful embeddings (all of them, or the members of
    one cluster). *)
Definition built_from (groups : list (string * list Path))
           (row : vec F) (m : Meta) : Prop :=
  exists (nm : string) (paths : list Path) (D : nat) (vs : list (vec F)),
    name m = Some nm
    /\ In (nm, paths) groups
    /\ vs <> []
    /\ incl vs (successes paths)
    /\ row = normalize (mean_axis0 (Matrix D vs)).

End BuilderSpec.

(** ** An implementation of the interface over the real numbers *)

(** A stable argsort by insertion: position [i] is placed after every
    position already present whose key is not larger. *)
Section InsertionArgsort.
Variable A : Type.
Variable leb : A -> A -> bool.
Variable dflt : A.

Fixpoint insert_idx (l : list A) (i : nat) (sorted : list nat) : list nat :=
  match sorted with
  | [] => [i]
  | j :: rest =>
      if leb (nth j l dflt) (nth i l dflt)
      then j :: insert_idx l i rest
      else i :: sorted
  end.

Definition stable_argsort (l : list A) : list nat :=
  fold_left (fun acc i => insert_idx l i acc) (seq 0 (length l)) [].
End InsertionArgsort.

Definition Rleb (a b : R) : bool := if Rle_dec a b then true else false.

#[export] Instance R_ops : NumpyOps R := {
  f_zero := 0%R;
  f_add := Rplus;
  f_mul := Rmult;
  f_div := Rdiv;
  f_neg := Ropp;
  f_sqrt := sqrt;
  f_eps := (/ 1000000000000)%R;
  f_of_nat := INR;
  f_leb := Rleb;
  argsort := stable_argsort Rleb 0%R
}.

(** ** The index across requests *)

Section IndexLifecycle.
Context {F : Type} {ops : NumpyOps F}.

(** What the process keeps true of [INDEX]: once the flag is set, both
    fields are present and of equal length. *)
Definition consistent (self : ActorIndex F) : Prop :=
  _loaded self = true ->
  exists (emb : matrix F) (m : list Meta),
    _emb self = Some emb /\ _meta self = Some m /\ length m = nrows emb.

(** A sequence of [topk] calls on the shared [INDEX] object, each one
    finding the files as they are at that moment. *)
Fixpoint run_requests (self : ActorIndex F) (reqs : list (Disk F * vec F * Z))
  : ActorIndex F * list (result (list (nat * F))) :=
  match reqs with
  | [] => (self, [])
  | (d, q, k) :: reqs' =>
      let '(self1, r) := topk d self q k in
      let '(self2, rs) := run_requests self1 reqs' in
      (self2, r :: rs)
  end.

End IndexLifecycle.

(** ** A response entry read off a metadata entry *)



(** ** build_actor_index.py: reading the dataset *)

(** A [defaultdict(list)] as the list of its items in insertion order.
    [mapping[k].append(v)]: onto the list under [k], or a new item at the
    end. *)
Fixpoint dict_append (mapping : list (string * list Path)) (k : string) (v : Path)
  : list (string * list Path) :=
  match mapping with
  | [] => [(k, [v])]
  | (k', vs) :: rest =>
      if String.eqb k k' then (k', vs ++ [v]) :: rest
      else (k', vs) :: dict_append rest k v
  end.

(** [mapping.get(k)] *)
Fixpoint dict_get (mapping : list (string * list Path)) (k : string)
  : option (list Path) :=
  match mapping with
  | [] => None
  | (k', vs) :: rest => if String.eqb k k' then Some vs else dict_get rest k
  end.

(** [suffix in {".jpg", ".jpeg", ".png", ".webp"}] *)
Definition allowed_suffix (suffix : string) : bool :=
  String.eqb suffix ".jpg" || String.eqb suffix ".jpeg"
  || String.eqb suffix ".png" || String.eqb suffix ".webp".

Section Ingest.
(** [p.suffix.lower()] *)
Variable suffix_lower : Path -> string.
(** The immediate subdirectories of a directory, each with its name and
    with what [rglob("*")] yields below it. *)
Variable subdirs : Path -> list (string * list Path).
(** The rows of a CSV file as [csv.DictReader] yields them: the fields
    ["name"] and ["image_path"]. *)
Variable csv_rows : Path -> list (string * string).
(** [str.strip], [Path(...).expanduser().resolve()] and [Path.exists]. *)
Variable strip : string -> string.
Variable resolve : string -> Path.
Variable path_exists : Path -> bool.

(** The body of [for actor_dir in sorted(...)]: the inner loop over
    [actor_dir.rglob("*")]. *)
Definition scan_dir (mapping : list (string * list Path))
           (actor_dir : string * list Path) : list (string * list Path) :=
  fold_left (fun mapping img =>
               if allowed_suffix (suffix_lower img)
               then dict_append mapping (fst actor_dir) img
               else mapping)
            (snd actor_dir) mapping.

Definition iter_folder (dataset_dir : Path) : list (string * list Path) :=
  fold_left scan_dir (sorted_items (subdirs dataset_dir)) [].

Definition iter_csv (csv_path : Path) : list (string * list Path) :=
  fold_left (fun mapping row =>
               let name := strip (fst row) in
               let img_path := resolve (snd row) in
               if path_exists img_path then dict_append mapping name img_path
               else mapping)
            (csv_rows csv_path) [].

(** The images [iter_folder] is to keep for the entity [name], in the
    order the loops meet them. *)
Definition folder_images (dataset_dir : Path) (name : string) : list Path :=
  flat_map (fun actor_dir : string * list Path =>
              if String.eqb name (fst actor_dir)
              then filter (fun img => allowed_suffix (suffix_lower img)) (snd actor_dir)
              else [])
           (sorted_items (subdirs dataset_dir)).

(** The images [iter_csv] is to keep for the entity [name], in row order. *)
Definition csv_images (csv_path : Path) (name : string) : list Path :=
  flat_map (fun row : string * string =>
              if String.eqb name (strip (fst row)) && path_exists (resolve (snd row))
              then [resolve (snd row)]
              else [])
           (csv_rows csv_path).

End Ingest.

(** ** services/face_preprocess.py and services/embeddings.py *)

(** [faces.sort(key=..., reverse=True)]: Python's sort is stable also when
    reversed, so a face is placed after every face already present whose
    key is not smaller. *)
Section SortDescending.
Variable A K : Type.
Variable leb : K -> K -> bool.
Variable key : A -> K.

Fixpoint insert_desc (x : A) (sorted : list A) : list A :=
  match sorted with
  | [] => [x]
  | y :: rest =>
      if leb (key x) (key y) then y :: insert_desc x rest else x :: sorted
  end.

Definition sort_desc (l : list A) : list A :=
  fold_left (fun acc x => insert_desc x acc) l [].
End SortDescending.

Section FaceAndEmbedding.
Context {F : Type} {ops : NumpyOps F}.

(** PIL images, detected faces and the insightface application are kept
    abstract, with the operations the code calls on them. *)
Variables Image Face Detector : Type.

(** [_INSIGHTFACE_AVAILABLE]: whether the imports went through. *)
Variable insightface_available : bool.
(** [FaceAnalysis(name='buffalo_l')] followed by [prepare]. *)
Variable make_detector : result Detector.
(** [app.get(img_np)] *)
Variable detect : Detector -> Image -> result (list Face).
(** The body of the [try]: the aligned chip as a PIL image. *)
Variable aligned_chip : Detector -> Image -> result Image.
(** [f.bbox] as [(x1, y1, x2, y2)] and [int(...)] of a coordinate. *)
Variable bbox : Face -> F * F * F * F.
Variable f_int : F -> Z.
(** [img_np.shape[1]], [img_np.shape[0]] and [image.crop(box)]. *)
Variable width : Image -> Z.
Variable height : Image -> Z.
Variable crop : Image -> Z * Z * Z * Z -> result Image.

(** [(f.bbox[2] - f.bbox[0]) * (f.bbox[3] - f.bbox[1])], a difference
    written as the sum with the negation. *)
Definition bbox_area (f : Face) : F :=
  let '(x1, y1, x2, y2) := bbox f in
  f_mul (f_add x2 (f_neg x1)) (f_add y2 (f_neg y1)).

(** [_get_detector] *)
Definition _get_detector : result (option Detector) :=
  if negb insightface_available then Ok None
  else match make_detector with
       | Ok app => Ok (Some app)
       | Raise e => Raise e
       end.

(** The box of the [except] branch: the integer bounding box cut to the
    image. *)
Definition clamped_box (image : Image) (best : Face) : Z * Z * Z * Z :=
  let '(x1, y1, x2, y2) := bbox best in
  let '(x1, y1, x2, y2) := (f_int x1, f_int y1, f_int x2, f_int y2) in
  let '(x1, y1) := (Z.max x1 0, Z.max y1 0) in
  let '(x2, y2) := (Z.min x2 (width image), Z.min y2 (height image)) in
  (x1, y1, x2, y2).

Definition preprocess_face (image : Image) : result (option Image) :=
  if negb insightface_available then Ok None
  else
    match _get_detector with
    | Raise e => Raise e
    | Ok None => Ok None
    | Ok (Some app) =>
        match detect app image with
        | Raise e => Raise e
        | Ok [] => Ok None
        | Ok faces =>
            match sort_desc f_leb bbox_area faces with
            | [] => Raise (Exn IndexError "list index out of range")
            | best :: _ =>
                match aligned_chip app image with
                | Ok chip => Ok (Some chip)
                | Raise _ =>
                    match crop image (clamped_box image best) with
                    | Ok c => Ok (Some c)
                    | Raise e => Raise e
                    end
                end
            end
        end
    end.

(** [get_clip()], [Image.open] with the conversion to RGB, and the
    processor followed by [model.get_image_features]. *)
Variable get_clip : result unit.
Variable image_open : list byte -> result Image.
Variable is_rgb : Image -> bool.
Variable convert_rgb : Image -> Image.
Variable image_features : Image -> result (vec F).

Definition _load_image (img_bytes : list byte) : result Image :=
  match image_open img_bytes with
  | Raise e => Raise e
  | Ok image => if negb (is_rgb image) then Ok (convert_rgb image) else Ok image
  end.

(** [feats / feats.norm(p=2, dim=-1, keepdim=True)]: no epsilon here. *)
Definition unit_scale (feats : vec F) : vec F :=
  map (fun x => f_div x (norm feats)) feats.

(** [image_embedding], with [face_hook] the module-level name
    [preprocess_face]: [None] when importing face_preprocess failed. *)
Definition image_embedding_of
           (face_hook : option (Image -> result (option Image)))
           (img_bytes : list byte) : result (vec F) :=
  match get_clip with
  | Raise e => Raise e
  | Ok _ =>
      match _load_image img_bytes with
      | Raise e => Raise e
      | Ok image =>
          let image :=
            match face_hook with
            | None => image
            | Some hook =>
                match hook image with
                | Ok (Some face_img) => face_img
                | Ok None => image
                | Raise _ => image
                end
            end in
          match image_features image with
          | Raise e => Raise e
          | Ok feats => Ok (unit_scale feats)
          end
      end
  end.

End FaceAndEmbedding.

(** ** Views of the builder's input and output *)

(** The groups with every path list cut after its 20th entry. *)
Definition truncate_groups (groups : list (string * list Path))
  : list (string * list Path) :=
  map (fun g => (fst g, firstn 20 (snd g))) groups.


(** A metadata entry without its image name. *)
Definition without_rel (m : Meta) : Meta := mkMeta (name m) None (cluster m).

(** Two states of the builder's lists that agree on the vectors and, up to
    the image names, on the metadata. *)
Definition same_rows {F : Type} (out1 out2 : output (F := F)) : Prop :=
  vectors out1 = vectors out2
  /\ map without_rel (meta out1) = map without_rel (meta out2).

(** ** Sample data over the reals, used to exercise the statements below *)

Definition sample_emb : matrix R := Matrix 2 [[1; 0]; [0; 1]]%R.
Definition sample_meta : list Meta :=
  [mkMeta (Some "Ada") (Some "Ada.png") None; mkMeta (Some "Bo") None None].
Definition sample_index : ActorIndex R :=
  mkActorIndex true (Some sample_emb) (Some sample_meta).
Definition sample_disk : Disk R := mkDisk (Some sample_emb) (Some sample_meta).
Definition empty_disk : Disk R := mkDisk None None.
Definition corrupt_disk : Disk R := mkDisk (Some sample_emb) (Some [mkMeta (Some "Ada") None None]).

(** A file of [n] zero bytes. *)
Definition blob (n : N) : list byte := repeat x00 (N.to_nat n).

Definition png_file : UploadFile :=
  mkUploadFile (Some "image/png") (Some "a.png") (blob 16).
Definition text_file : UploadFile :=
  mkUploadFile (Some "text/plain") (Some "notes.txt") (blob 16).
Definition corrupt_file : UploadFile :=
  mkUploadFile (Some "image/jpeg") (Some "broken.jpg") (blob 3).
(** One byte over 10 MiB. *)
Definition big_file : UploadFile :=
  mkUploadFile (Some "image/png") (Some "big.png") (blob 10485761).

(** An encoder that rejects files shorter than four bytes and maps every
    other file to the first unit vector. *)
Definition sample_embedding (bytes : list byte) : result (vec R) :=
  if Nat.ltb (length bytes) 4
  then Raise (Exn OtherException "cannot identify image file")
  else Ok [1; 0]%R.

(** A file system for the builder: every file reads as sixteen bytes and
    saves; sklearn is not installed. *)
Definition sample_read (p : Path) : result (list byte) := Ok (blob 16).
Definition sample_suffix (p : Path) : string := ".jpg".
Definition sample_save (p : Path) : bool := true.
Definition no_sklearn (n : Z) (X : matrix R) : result (list nat) :=
  Raise (Exn OtherException "No module named sklearn").
Definition sample_iter_folder (p : Path) : list (string * list Path) :=
  [("Ada", ["photos/Ada/1.jpg"])].
Definition sample_iter_csv (p : Path) : list (string * list Path) :=
  [("Bo", ["/data/bo.png"])].
Definition sample_main : Args -> images_dir -> outcome (F := R) :=
  main sample_embedding sample_read sample_suffix sample_save no_sklearn
       sample_iter_folder sample_iter_csv.



(** An encoder and a reader under which nothing can be embedded. *)
Definition unreadable (p : Path) : result (list byte) :=
  Raise (Exn OtherException "cannot open file").

(** A dataset directory with two entity folders, one of them without any
    image file. *)
Definition sample_subdirs (p : Path) : list (string * list Path) :=
  [("Bo", ["photos/Bo/notes.txt"]); ("Ada", ["photos/Ada/1.JPG"; "photos/Ada/readme.md"])].
Definition no_image_subdirs (p : Path) : list (string * list Path) :=
  [("Bo", ["photos/Bo/notes.txt"])].
(** The lower-cased suffix of the sample paths: the text from the last dot
    on. *)
Definition sample_suffix_of (p : Path) : string :=
  if String.eqb p "photos/Ada/1.JPG" then ".jpg"
  else if String.eqb p "photos/Ada/readme.md" then ".md"
  else ".txt".

(** An encoder assembled from [image_embedding_of]: images are byte
    lists, empty files cannot be opened, the features are fixed, and
    insightface is not installed. *)
Definition sample_open (bytes : list byte) : result (list byte) :=
  match bytes with
  | [] => Raise (Exn OtherException "cannot identify image file")
  | _ => Ok bytes
  end.
Definition sample_features (image : list byte) : result (vec R) := Ok [3; 4]%R.
Definition sample_hook : list byte -> result (option (list byte)) :=
  preprocess_face (F := R) (Face := unit) (Detector := unit)
                  false (Ok tt) (fun _ _ => Ok []) (fun _ image => Ok image)
                  (fun _ => (0, 0, 0, 0)%R) (fun _ => 0) (fun _ => 0) (fun _ => 0)
                  (fun image _ => Ok image).
Definition sample_image_embedding (hook : option (list byte -> result (option (list byte))))
  : list byte -> result (vec R) :=
  image_embedding_of (Ok tt) sample_open (fun _ => true) (fun image => image)
                     sample_features hook.

Definition sample_groups : list (string * list Path) :=
  [("Bo", ["bo/1.jpg"; "bo/2.jpg"]); ("Ada", ["ada/1.jpg"])].

(** * Properties *)

Unset Implicit Arguments.

(** ** Lists *)

Lemma In_firstn {A} (n : nat) (l : list A) (x : A) :
  In x (firstn n l) -> In x l.
Proof.
  revert n. induction l as [| a l IH]; intros [| n]; simpl; try tauto.
  intros [-> | Hx]; [now left | right; eauto].
Qed.



Lemma py_take_nonneg {A} (k : Z) (l : list A) :
  0 <= k -> py_take k l = firstn (Z.to_nat k) l.
Proof.
  intros Hk. unfold py_take.
  destruct (k <? 0) eqn:E; [apply Z.ltb_lt in E; lia | reflexivity].
Qed.

(** ** search.py: loading *)

Section SearchFacts.
Context {F : Type} `{NumpyOps F}.

Lemma nrows_normalize_rows (m : matrix F) : nrows (normalize_rows m) = nrows m.
Proof. unfold nrows, normalize_rows; simpl. apply length_map. Qed.

Lemma length_normalize (v : vec F) : length (normalize v) = length v.
Proof. unfold normalize. apply length_map. Qed.

Lemma ensure_loaded_cached (d : Disk F) (self : ActorIndex F) :
  _loaded self = true -> ensure_loaded d self = (self, Ok tt).
Proof. intros Hl. unfold ensure_loaded. now rewrite Hl. Qed.

Lemma ensure_loaded_missing (d : Disk F) (self : ActorIndex F) :
  _loaded self = false ->
  embeddings_npy d = None \/ metadata_json d = None ->
  ensure_loaded d self = (self, Raise index_not_built).
Proof.
  intros Hl Hm. unfold ensure_loaded. rewrite Hl.
  destruct Hm as [-> | ->]; [reflexivity |].
  now destruct (embeddings_npy d).
Qed.

Lemma ensure_loaded_mismatch (d : Disk F) (self : ActorIndex F) e m :
  _loaded self = false ->
  embeddings_npy d = Some e -> metadata_json d = Some m ->
  length m <> nrows e ->
  ensure_loaded d self
  = (mkActorIndex false (Some (normalize_rows e)) (Some m), Raise row_count_mismatch).
Proof.
  intros Hl He Hm Hne. unfold ensure_loaded. rewrite Hl, He, Hm. simpl.
  rewrite nrows_normalize_rows.
  destruct (Nat.eqb (length m) (nrows e)) eqn:E; simpl; [| reflexivity].
  apply Nat.eqb_eq in E. contradiction.
Qed.

Lemma ensure_loaded_valid (d : Disk F) (self : ActorIndex F) e m :
  _loaded self = false ->
  embeddings_npy d = Some e -> metadata_json d = Some m ->
  length m = nrows e ->
  ensure_loaded d self
  = (mkActorIndex true (Some (normalize_rows e)) (Some m), Ok tt).
Proof.
  intros Hl He Hm Heq. unfold ensure_loaded. rewrite Hl, He, Hm. simpl.
  rewrite nrows_normalize_rows, Heq, Nat.eqb_refl. reflexivity.
Qed.

(** Whatever [ensure_loaded] raises, the flag is as it was. *)
Lemma ensure_loaded_raise_flag (d : Disk F) (self self' : ActorIndex F) ex :
  ensure_loaded d self = (self', Raise ex) -> _loaded self' = false.
Proof.
  unfold ensure_loaded. destruct (_loaded self) eqn:Hl; [discriminate |].
  destruct (embeddings_npy d) as [e |]; [destruct (metadata_json d) as [m |] |].
  - simpl. destruct (negb _); [| discriminate].
    intros [= <- _]. reflexivity.
  - intros [= <- _]. assumption.
  - intros [= <- _]. assumption.
Qed.

Lemma topk_raise_of_ensure (d : Disk F) (self self' : ActorIndex F) q k ex :
  ensure_loaded d self = (self', Raise ex) ->
  topk d self q k = (self', Raise ex).
Proof. intros He. unfold topk. now rewrite He. Qed.

Lemma topk_of_loaded (d : Disk F) (self : ActorIndex F) emb q k :
  ensure_loaded d self = (self, Ok tt) \/ _loaded self = true ->
  _emb self = Some emb ->
  length q = ncols emb ->
  topk d self q k
  = (self,
     Ok (map (fun i => (i, nth i (map (fun r => dot r (normalize q)) (rows emb)) f_zero))
             (py_take k (argsort (map f_neg
                (map (fun r => dot r (normalize q)) (rows emb))))))).
Proof.
  intros Hl He Hq.
  assert (Hen : ensure_loaded d self = (self, Ok tt)).
  { destruct Hl as [Hl | Hl]; [exact Hl | now apply ensure_loaded_cached]. }
  unfold topk. rewrite Hen, He. unfold matvec.
  rewrite length_normalize, Hq, Nat.eqb_refl. reflexivity.
Qed.

End SearchFacts.

(** ** The insertion argsort meets the laws *)

Section InsertionArgsortFacts.
Variable A : Type.
Variable leb : A -> A -> bool.
Variable dflt : A.
Hypothesis leb_total : forall a b, leb a b = true \/ leb b a = true.
Hypothesis leb_trans : forall a b c, leb a b = true -> leb b c = true -> leb a c = true.

Let key_le (l : list A) (i j : nat) : Prop :=
  leb (nth i l dflt) (nth j l dflt) = true.

Lemma insert_idx_perm (l : list A) (i : nat) (acc : list nat) :
  Permutation (insert_idx leb dflt l i acc) (i :: acc).
Proof.
  induction acc as [| j rest IH]; simpl; [reflexivity |].
  destruct (leb (nth j l dflt) (nth i l dflt)); [| reflexivity].
  rewrite IH. apply perm_swap.
Qed.

Lemma insert_idx_sorted (l : list A) (i : nat) (acc : list nat) :
  StronglySorted (fun i j => leb (nth i l dflt) (nth j l dflt) = true) acc ->
  StronglySorted (fun i j => leb (nth i l dflt) (nth j l dflt) = true)
                 (insert_idx leb dflt l i acc).
Proof.
  induction 1 as [| j rest Hs IH Hj]; simpl.
  - repeat constructor.
  - destruct (leb (nth j l dflt) (nth i l dflt)) eqn:E.
    + constructor; [exact IH |].
      rewrite Forall_forall in *. intros k Hk.
      apply (Permutation_in _ (insert_idx_perm l i rest)) in Hk.
      destruct Hk as [<- | Hk]; [exact E | now apply Hj].
    + assert (Hij : leb (nth i l dflt) (nth j l dflt) = true).
      { destruct (leb_total (nth i l dflt) (nth j l dflt)) as [Ht | Ht];
          [exact Ht | congruence]. }
      constructor; [now constructor |].
      constructor; [exact Hij |].
      rewrite Forall_forall in *. intros k Hk.
      eapply leb_trans; [exact Hij | now apply Hj].
Qed.

Lemma fold_insert_perm (l : list A) (ixs acc : list nat) :
  Permutation (fold_left (fun acc i => insert_idx leb dflt l i acc) ixs acc)
              (ixs ++ acc).
Proof.
  revert acc. induction ixs as [| i ixs IH]; intros acc; simpl; [reflexivity |].
  rewrite IH, insert_idx_perm. symmetry. apply Permutation_middle.
Qed.

Lemma fold_insert_sorted (l : list A) (ixs acc : list nat) :
  StronglySorted (fun i j => leb (nth i l dflt) (nth j l dflt) = true) acc ->
  StronglySorted (fun i j => leb (nth i l dflt) (nth j l dflt) = true)
    (fold_left (fun acc i => insert_idx leb dflt l i acc) ixs acc).
Proof.
  revert acc. induction ixs as [| i ixs IH]; intros acc Hs; simpl; [exact Hs |].
  apply IH. now apply insert_idx_sorted.
Qed.

Lemma stable_argsort_perm (l : list A) :
  Permutation (stable_argsort leb dflt l) (seq 0 (length l)).
Proof.
  unfold stable_argsort. rewrite fold_insert_perm. now rewrite app_nil_r.
Qed.

Lemma stable_argsort_sorted (l : list A) :
  StronglySorted (fun i j => leb (nth i l dflt) (nth j l dflt) = true)
                 (stable_argsort leb dflt l).
Proof. unfold stable_argsort. apply fold_insert_sorted. constructor. Qed.
End InsertionArgsortFacts.

Lemma Rleb_true (a b : R) : Rleb a b = true <-> (a <= b)%R.
Proof. unfold Rleb. destruct (Rle_dec a b); split; intros; try easy. Qed.


#[export] Instance R_laws : NumpyLaws R.
Proof.
  assert (Htot : forall a b, Rleb a b = true \/ Rleb b a = true).
  { intros a b. rewrite !Rleb_true. lra. }
  assert (Htr : forall a b c, Rleb a b = true -> Rleb b c = true -> Rleb a c = true).
  { intros a b c. rewrite !Rleb_true. lra. }
  constructor.
  - intros l. apply stable_argsort_perm.
  - intros l. apply (stable_argsort_sorted R Rleb 0%R Htot Htr).
  - intros a b. simpl. rewrite !Rleb_true. lra.
Qed.

(** ** search.py: [topk] *)

Section TopkFacts.
Context {F : Type} {ops : NumpyOps F} {laws : NumpyLaws F}.


Lemma argsort_in_range (l : list F) (i : nat) :
  In i (argsort l) -> (i < length l)%nat.
Proof.
  intros Hi. apply (Permutation_in _ (argsort_perm l)) in Hi.
  apply in_seq in Hi. lia.
Qed.




End TopkFacts.




(** C3.  When both files exist but the metadata list and the matrix differ
    in length, loading raises the row-count [ValueError] and leaves the
    index unloaded; every later [topk] against the same files raises the
    same error, and the index stays unloaded. *)
Theorem corrupt_index_never_loads
        {F : Type} {ops : NumpyOps F}
        (d : Disk F) (self : ActorIndex F) (e : matrix F) (m : list Meta) :
  _loaded self = false ->
  embeddings_npy d = Some e ->
  metadata_json d = Some m ->
  length m <> nrows e ->
  snd (ensure_loaded d self) = Raise row_count_mismatch
  /\ _loaded (fst (ensure_loaded d self)) = false
  /\ forall qs : list (vec F * Z),
       Forall (fun r => r = Raise row_count_mismatch)
              (snd (run_queries d (fst (ensure_loaded d self)) qs))
       /\ _loaded (fst (run_queries d (fst (ensure_loaded d self)) qs)) = false.
Proof.
  intros Hl He Hm Hne.
  rewrite (ensure_loaded_mismatch d self e m Hl He Hm Hne). simpl.
  split; [reflexivity | split; [reflexivity |]].
  intros qs.
  set (s1 := mkActorIndex false (Some (normalize_rows e)) (Some m)).
  assert (Hstep : ensure_loaded d s1 = (s1, Raise row_count_mismatch)).
  { apply (ensure_loaded_mismatch d s1 e m eq_refl He Hm Hne). }
  induction qs as [| [q k] qs IH]; simpl.
  - split; [constructor | reflexivity].
  - rewrite (topk_raise_of_ensure d s1 s1 q k _ Hstep).
    destruct (run_queries d s1 qs) as [s2 rs]. simpl in *.
    destruct IH as [IH1 IH2]. split; [constructor; [reflexivity | exact IH1] | exact IH2].
Qed.

Lemma corrupt_index_never_loads_witness :
  snd (ensure_loaded corrupt_disk INDEX0) = Raise row_count_mismatch
  /\ _loaded (fst (ensure_loaded corrupt_disk INDEX0)) = false.
Proof.
  destruct (@corrupt_index_never_loads R R_ops corrupt_disk INDEX0 sample_emb
              [mkMeta (Some "Ada") None None] eq_refl eq_refl eq_refl
              ltac:(cbv; discriminate)) as (H1 & H2 & _).
  split; [exact H1 | exact H2].
Defined.

(** C10.  Whenever [ensure_loaded] raises, it is for missing files or for
    the row-count mismatch, and the loaded flag is false afterwards; a
    later [topk] therefore loads again from the files it then finds, and
    if those are consistent it answers and leaves the index loaded with
    their contents. *)
Theorem failed_load_not_cached
        {F : Type} {ops : NumpyOps F}
        (d : Disk F) (self self' : ActorIndex F) (ex : exn) :
  ensure_loaded d self = (self', Raise ex) ->
  (ex = index_not_built \/ ex = row_count_mismatch)
  /\ _loaded self' = false
  /\ forall (d' : Disk F) (e : matrix F) (m : list Meta) (q : vec F) (k : Z),
       embeddings_npy d' = Some e ->
       metadata_json d' = Some m ->
       length m = nrows e ->
       length q = ncols e ->
       exists top,
         topk d' self' q k
         = (mkActorIndex true (Some (normalize_rows e)) (Some m), Ok top).
Proof.
  intros Hfail.
  assert (Hflag : _loaded self' = false) by exact (ensure_loaded_raise_flag d self self' ex Hfail).
  split; [| split; [exact Hflag |]].
  - revert Hfail. unfold ensure_loaded.
    destruct (_loaded self); [discriminate |].
    destruct (embeddings_npy d); [destruct (metadata_json d) |].
    + simpl. destruct (negb _); [| discriminate]. intros [= _ <-]. now right.
    + intros [= _ <-]. now left.
    + intros [= _ <-]. now left.
  - intros d' e m q k He Hm Hlen Hq.
    pose proof (ensure_loaded_valid d' self' e m Hflag He Hm Hlen) as Hload.
    unfold topk. rewrite Hload. simpl. unfold matvec.
    rewrite length_normalize, Hq. simpl. rewrite Nat.eqb_refl.
    eexists. reflexivity.
Qed.

Lemma failed_load_not_cached_witness :
  exists top,
    topk sample_disk (fst (ensure_loaded empty_disk INDEX0)) [1; 0]%R 3
    = (mkActorIndex true (Some (normalize_rows sample_emb)) (Some sample_meta), Ok top).
Proof.
  destruct (@failed_load_not_cached R R_ops empty_disk INDEX0 INDEX0
              index_not_built eq_refl) as (_ & _ & Hnext).
  exact (Hnext sample_disk sample_emb sample_meta [1; 0]%R 3
               eq_refl eq_refl eq_refl eq_refl).
Defined.

(** ** main.py: the single-image handler *)

Section HandlerFacts.
Context {F : Type} {ops : NumpyOps F}.
Variable image_embedding : list byte -> result (vec F).

(** [topk] raises [FileNotFoundError] only out of [ensure_loaded], on an
    unloaded index with a file missing. *)
Lemma topk_file_not_found (d : Disk F) (self self' : ActorIndex F) q k ex :
  topk d self q k = (self', Raise ex) ->
  is_file_not_found ex = true ->
  _loaded self = false
  /\ (embeddings_npy d = None \/ metadata_json d = None)
  /\ ex = index_not_built /\ self' = self.
Proof.
  unfold topk, ensure_loaded.
  destruct (_loaded self) eqn:Hl.
  - destruct (_emb self) as [emb |]; [| intros [= _ <-]; discriminate].
    unfold matvec. destruct (Nat.eqb _ _); [discriminate |].
    intros [= _ <-]; discriminate.
  - destruct (embeddings_npy d) as [e |]; [destruct (metadata_json d) as [m |] |].
    + simpl. destruct (negb _); [intros [= _ <-]; discriminate |].
      simpl. unfold matvec. destruct (Nat.eqb _ _); [discriminate |].
      intros [= _ <-]; discriminate.
    + intros [= <- <-] _. auto.
    + intros [= <- <-] _. auto.
Qed.

Lemma topk_not_built (d : Disk F) (self : ActorIndex F) q k :
  _loaded self = false ->
  embeddings_npy d = None \/ metadata_json d = None ->
  topk d self q k = (self, Raise index_not_built).
Proof.
  intros Hl Hm. apply topk_raise_of_ensure. now apply ensure_loaded_missing.
Qed.

(** The status of [match_actors] on an oversized upload. *)
Lemma match_actors_oversized (d : Disk F) (INDEX : ActorIndex F)
      (file : UploadFile) (top_k : Z) :
  too_large (contents file) = true ->
  exists detail,
    match_actors image_embedding d INDEX file top_k
    = (INDEX, HTTPException (if not_an_image file then 400 else 413) detail).
Proof.
  intros Hbig. unfold match_actors.
  destruct (not_an_image file); [eexists; reflexivity |].
  rewrite Hbig. eexists; reflexivity.
Qed.

End HandlerFacts.

Lemma length_blob (n : N) : Z.of_nat (length (blob n)) = Z.of_N n.
Proof. unfold blob. rewrite repeat_length. apply N_nat_Z. Qed.

Lemma too_large_blob (n : N) :
  (10485760 <? Z.of_N n) = true -> too_large (blob n) = true.
Proof.
  intros Hn. unfold too_large. rewrite length_blob.
  apply Z.ltb_lt in Hn. apply Z.gtb_lt. lia.
Qed.

Lemma small_blob (n : N) :
  (Z.of_N n <=? 10485760) = true -> too_large (blob n) = false.
Proof.
  intros Hn. unfold too_large. rewrite length_blob.
  apply Z.leb_le in Hn. rewrite Z.gtb_ltb. apply Z.ltb_ge. lia.
Qed.

(** C2.  On an unloaded index with either file missing, every query raises
    the index-not-built [FileNotFoundError] (it does not return a list);
    [match_actors] on an accepted upload then answers 503 with that
    message; and [match_actors] answers 503 in no other situation. *)
Theorem index_not_built_is_503
        {F : Type} {ops : NumpyOps F}
        (image_embedding : list byte -> result (vec F))
        (d : Disk F) (INDEX : ActorIndex F) :
  _loaded INDEX = false ->
  embeddings_npy d = None \/ metadata_json d = None ->
  (forall q k, topk d INDEX q k = (INDEX, Raise index_not_built))
  /\ exn_cls index_not_built = FileNotFoundError
  /\ (forall file top_k q,
        not_an_image file = false ->
        too_large (contents file) = false ->
        image_embedding (contents file) = Ok q ->
        match_actors image_embedding d INDEX file top_k
        = (INDEX, HTTPException 503 (exn_msg index_not_built)))
  /\ (forall d' INDEX' file top_k,
        status (snd (match_actors image_embedding d' INDEX' file top_k)) = 503 ->
        _loaded INDEX' = false
        /\ (embeddings_npy d' = None \/ metadata_json d' = None)).
Proof.
  intros Hl Hm.
  split; [intros q k; now apply topk_not_built |].
  split; [reflexivity |].
  split.
  - intros file top_k q Himg Hsize Hemb. unfold match_actors.
    rewrite Himg, Hsize, Hemb, (topk_not_built d INDEX q top_k Hl Hm).
    reflexivity.
  - intros d' INDEX' file top_k. unfold match_actors.
    destruct (not_an_image file); [simpl; discriminate |].
    destruct (too_large (contents file)); [simpl; discriminate |].
    destruct (image_embedding (contents file)) as [q | e]; [| simpl; discriminate].
    destruct (topk d' INDEX' q top_k) as [INDEX1 [top | e]] eqn:Htop.
    + destruct (results_loop INDEX1 top []); simpl; discriminate.
    + destruct (is_file_not_found e) eqn:Hfnf; [| simpl; discriminate].
      intros _. apply (topk_file_not_found d' INDEX' INDEX1 q top_k e Htop) in Hfnf.
      tauto.
Qed.

Lemma index_not_built_is_503_witness :
  status (snd (match_actors sample_embedding empty_disk INDEX0 png_file 3)) = 503.
Proof.
  destruct (@index_not_built_is_503 R R_ops sample_embedding empty_disk INDEX0
              eq_refl (or_introl eq_refl)) as (_ & _ & Hh & _).
  rewrite (Hh png_file 3 [1; 0]%R eq_refl (small_blob 16 eq_refl) eq_refl).
  reflexivity.
Defined.

(** C7 as stated fails: an image upload of 10 MiB + 1 byte is answered
    with status 413, not 400. *)
Lemma oversized_upload_is_413 :
  status (snd (match_actors sample_embedding sample_disk sample_index big_file 3)) = 413
  /\ status (snd (match_actors sample_embedding sample_disk sample_index big_file 3)) <> 400.
Proof.
  destruct (match_actors_oversized sample_embedding sample_disk sample_index
              big_file 3 (too_large_blob 10485761 eq_refl)) as [detail Hr].
  rewrite Hr.
  change (not_an_image big_file) with false. simpl. split; [reflexivity | discriminate].
Qed.

(** C7, amended.  [match_actors] rejects every upload whose payload exceeds
    10 MiB without touching the index: with status 413 when the declared
    content type is an image type, and with status 400 (from the
    content-type check, which comes first) when it is not. *)
Theorem oversized_upload_rejected
        {F : Type} {ops : NumpyOps F}
        (image_embedding : list byte -> result (vec F))
        (d : Disk F) (INDEX : ActorIndex F) (file : UploadFile) (top_k : Z) :
  Z.of_nat (length (contents file)) > 10 * 1024 * 1024 ->
  exists detail,
    match_actors image_embedding d INDEX file top_k
    = (INDEX, HTTPException (if not_an_image file then 400 else 413) detail).
Proof.
  intros Hbig. apply match_actors_oversized.
  unfold too_large. apply Z.gtb_lt. lia.
Qed.

Lemma oversized_upload_rejected_witness :
  exists detail,
    match_actors sample_embedding sample_disk sample_index big_file 3
    = (sample_index, HTTPException 413 detail).
Proof.
  assert (Hbig : Z.of_nat (length (contents big_file)) > 10 * 1024 * 1024).
  { change (contents big_file) with (blob 10485761). rewrite length_blob.
    reflexivity. }
  exact (@oversized_upload_rejected R R_ops sample_embedding sample_disk
           sample_index big_file 3 Hbig).
Defined.

(** ** main.py: the batch handler *)

Lemma In_py_take {A} (k : Z) (l : list A) (x : A) : In x (py_take k l) -> In x l.
Proof. unfold py_take. destruct (k <? 0); apply In_firstn. Qed.


Section BatchFacts.
Context {F : Type} {ops : NumpyOps F}.
Variable image_embedding : list byte -> result (vec F).

(** The encoder reports its failures with exceptions other than
    [FileNotFoundError]. *)
Hypothesis encoder_errors :
  forall bytes e, image_embedding bytes = Raise e -> is_file_not_found e = false.

Variable d : Disk F.
Variable top_k : Z.








End BatchFacts.

Section BatchOnLoadedIndex.
Context {F : Type} {ops : NumpyOps F} {laws : NumpyLaws F}.
Variable image_embedding : list byte -> result (vec F).
Hypothesis encoder_errors :
  forall bytes e, image_embedding bytes = Raise e -> is_file_not_found e = false.

Variable d : Disk F.
Variable top_k : Z.
Variable INDEX : ActorIndex F.
Variable emb : matrix F.
Variable m : list Meta.
Hypothesis Hloaded : _loaded INDEX = true.
Hypothesis Hemb : _emb INDEX = Some emb.
Hypothesis Hmeta : _meta INDEX = Some m.
Hypothesis Hrows : length m = nrows emb.
Hypothesis Hdim : forall bytes q, image_embedding bytes = Ok q -> length q = ncols emb.



End BatchOnLoadedIndex.


Lemma sample_embedding_errors (bytes : list byte) (e : exn) :
  sample_embedding bytes = Raise e -> is_file_not_found e = false.
Proof.
  unfold sample_embedding. destruct (Nat.ltb _ _); [| discriminate].
  now intros [= <-].
Qed.



(** ** build_actor_index.py: the command line *)

(** C8 as stated fails: with both [--dataset-dir] and [--csv] on the
    command line the builder does not stop; it builds the index from the
    dataset directory, exactly as if [--csv] were absent. *)
Lemma both_modes_accepted :
  (exists d dir,
      sample_main (mkArgs (Some "photos") (Some "list.csv") 1) [] = Saved d dir)
  /\ sample_main (mkArgs (Some "photos") (Some "list.csv") 1) []
     = sample_main (mkArgs (Some "photos") None 1) [].
Proof.
  split; [| reflexivity].
  eexists. eexists. reflexivity.
Qed.

(** C8, amended.  The builder stops with the usage error exactly when
    neither [--dataset-dir] nor [--csv] is supplied (an empty string counts
    as not supplied).  When [--dataset-dir] is supplied, [--csv] is never
    looked at: the run is the one without it. *)
Theorem input_mode_selection
        {F : Type} {ops : NumpyOps F}
        (image_embedding : list byte -> result (vec F))
        (read_bytes : Path -> result (list byte))
        (suffix_lower : Path -> string) (save_image : Path -> bool)
        (fit_predict : Z -> matrix F -> result (list nat))
        (iter_folder iter_csv : Path -> list (string * list Path))
        (args : Args) (dir : images_dir) :
  (main image_embedding read_bytes suffix_lower save_image fit_predict
        iter_folder iter_csv args dir = SystemExit usage_error
   <-> given (dataset_dir args) = false /\ given (csv args) = false)
  /\ forall other_csv,
      given (dataset_dir args) = true ->
      main image_embedding read_bytes suffix_lower save_image fit_predict
           iter_folder iter_csv args dir
      = main image_embedding read_bytes suffix_lower save_image fit_predict
             iter_folder iter_csv
             (mkArgs (dataset_dir args) other_csv (clusters_per_actor_arg args)) dir.
Proof.
  split.
  - unfold main.
    assert (Hrun : forall groups : list (string * list Path),
               match groups with
               | [] => SystemExit no_images_error
               | _ :: _ =>
                   match compute_actor_vectors image_embedding read_bytes suffix_lower
                           save_image fit_predict groups
                           (Z.max 1 (clusters_per_actor_arg args)) dir with
                   | Ok (emb, meta, dir') => Saved (mkDisk (Some emb) (Some meta)) dir'
                   | Raise e => Crashed e
                   end
               end <> SystemExit (F := F) usage_error).
    { intros [| g groups]; [discriminate |].
      destruct (compute_actor_vectors _ _ _ _ _ _ _ _) as [[[? ?] ?] | ?]; discriminate. }
    destruct (given (dataset_dir args)); [| destruct (given (csv args))].
    + split; [intros Hm; now apply Hrun in Hm | intros [? _]; discriminate].
    + split; [intros Hm; now apply Hrun in Hm | intros [_ ?]; discriminate].
    + split; [auto | reflexivity].
  - intros other_csv Hds. unfold main. simpl. rewrite Hds. reflexivity.
Qed.

(** ** build_actor_index.py: the vectors *)


Section BuilderFacts.
Context {F : Type} {ops : NumpyOps F}.
Variable image_embedding : list byte -> result (vec F).
Variable read_bytes : Path -> result (list byte).
Variable suffix_lower : Path -> string.
Variable save_image : Path -> bool.
Variable fit_predict : Z -> matrix F -> result (list nat).

Lemma embs_sample_one (name : string) (p : Path) (st : sampling) :
  embs (sample_one image_embedding read_bytes suffix_lower save_image name p st)
  = embs st ++ match embed_path image_embedding read_bytes p with
               | Some emb => [emb]
               | None => []
               end.
Proof.
  unfold sample_one, embed_path.
  destruct (read_bytes p) as [bytes |]; [| now rewrite app_nil_r].
  destruct (image_embedding bytes) as [emb |]; [| now rewrite app_nil_r].
  destruct (rep_rel st); reflexivity.
Qed.

Lemma embs_fold_sample (name : string) (ps : list Path) (st : sampling) :
  embs (fold_left
          (fun st p => sample_one image_embedding read_bytes suffix_lower save_image name p st)
          ps st)
  = embs st
    ++ flat_map (fun p => match embed_path image_embedding read_bytes p with
                          | Some emb => [emb]
                          | None => []
                          end) ps.
Proof.
  revert st. induction ps as [| p ps IH]; intros st; simpl.
  - now rewrite app_nil_r.
  - now rewrite IH, embs_sample_one, <- app_assoc.
Qed.

(** The sampling loop collects exactly the successes among the first 20
    paths, in order. *)
Lemma embs_sample_paths (name : string) (paths : list Path) (dir : images_dir) :
  embs (sample_paths image_embedding read_bytes suffix_lower save_image name paths dir)
  = successes image_embedding read_bytes paths.
Proof. unfold sample_paths. now rewrite embs_fold_sample. Qed.







Section DefaultMode.
Variable D : nat.
Hypothesis encoder_dim : forall bytes q, image_embedding bytes = Ok q -> length q = D.
Variable clusters_per_actor : Z.
Hypothesis no_clusters : clusters_per_actor <= 1.




End DefaultMode.
End BuilderFacts.



(** ** Real arithmetic: norms and dot products *)

Section RealVectors.
Local Open Scope R_scope.

Lemma fold_left_Rplus_shift {A} (g : A -> R) (l : list A) (a : R) :
  fold_left (fun acc x => acc + g x) l a
  = a + fold_left (fun acc x => acc + g x) l 0.
Proof.
  revert a. induction l as [| x l IH]; intros a; simpl.
  - lra.
  - rewrite (IH (a + g x)), (IH (0 + g x)). lra.
Qed.

Lemma sum_sq_nil : sum_sq (F := R) [] = 0.
Proof. reflexivity. Qed.

Lemma sum_sq_cons (x : R) (v : vec R) : sum_sq (x :: v) = x * x + sum_sq v.
Proof.
  unfold sum_sq. simpl.
  rewrite (fold_left_Rplus_shift (fun y => y * y)). lra.
Qed.




Lemma sum_sq_nonneg (v : vec R) : 0 <= sum_sq v.
Proof.
  induction v as [| x v IH]; [rewrite sum_sq_nil; lra |].
  rewrite sum_sq_cons. nra.
Qed.



Lemma norm_sq (v : vec R) : norm v * norm v = sum_sq v.
Proof. unfold norm. simpl. apply sqrt_sqrt, sum_sq_nonneg. Qed.


Lemma sum_sq_scale (c : R) (v : vec R) :
  c <> 0 -> sum_sq (map (fun x => x / c) v) = sum_sq v / (c * c).
Proof.
  intros Hc. induction v as [| x v IH]; simpl.
  - rewrite sum_sq_nil. field. exact Hc.
  - rewrite !sum_sq_cons, IH. field. exact Hc.
Qed.







End RealVectors.

(** ** search.py: querying with a row of the index *)







(** ** build_actor_index.py: the two parallel lists *)

Lemma string_leb_iff (a b : string) :
  String.leb a b = true <-> a = b \/ OrderedTypeEx.String_as_OT.lt a b.
Proof.
  unfold String.leb.
  destruct (String.compare a b) eqn:E; split; intros Hx; try reflexivity;
    try discriminate.
  - left. now apply OrderedTypeEx.String_as_OT.cmp_eq.
  - right. now apply OrderedTypeEx.String_as_OT.cmp_lt.
  - exfalso.
    assert (Hba : OrderedTypeEx.String_as_OT.lt b a).
    { apply OrderedTypeEx.String_as_OT.cmp_lt.
      unfold OrderedTypeEx.String_as_OT.cmp.
      rewrite String.compare_antisym, E. reflexivity. }
    destruct Hx as [-> | Hab].
    + apply OrderedTypeEx.String_as_OT.lt_not_eq in Hba. apply Hba. reflexivity.
    + pose proof (OrderedTypeEx.String_as_OT.lt_trans _ _ _ Hab Hba) as Haa.
      apply OrderedTypeEx.String_as_OT.lt_not_eq in Haa. apply Haa. reflexivity.
Qed.

Lemma string_leb_refl (a : string) : String.leb a a = true.
Proof. apply string_leb_iff. now left. Qed.

Lemma string_leb_trans (a b c : string) :
  String.leb a b = true -> String.leb b c = true -> String.leb a c = true.
Proof.
  rewrite !string_leb_iff. intros [-> | Hab] [-> | Hbc]; auto.
  right. eapply OrderedTypeEx.String_as_OT.lt_trans; eauto.
Qed.

Lemma insert_item_perm {A} (x : string * A) (l : list (string * A)) :
  Permutation (insert_item x l) (x :: l).
Proof.
  induction l as [| y l IH]; simpl; [reflexivity |].
  destruct (String.leb (fst x) (fst y)); [reflexivity |].
  rewrite IH. apply perm_swap.
Qed.

Lemma sorted_items_perm {A} (l : list (string * A)) : Permutation (sorted_items l) l.
Proof.
  induction l as [| x l IH]; simpl; [reflexivity |].
  rewrite insert_item_perm. now constructor.
Qed.

Lemma insert_item_sorted {A} (x : string * A) (l : list (string * A)) :
  StronglySorted item_le l -> StronglySorted item_le (insert_item x l).
Proof.
  induction 1 as [| y l Hs IH Hy]; simpl.
  - repeat constructor.
  - destruct (String.leb (fst x) (fst y)) eqn:E.
    + constructor; [now constructor |].
      constructor; [exact E |].
      rewrite Forall_forall in *. intros z Hz.
      eapply string_leb_trans; [exact E | now apply Hy].
    + constructor; [exact IH |].
      rewrite Forall_forall in *. intros z Hz.
      apply (Permutation_in _ (insert_item_perm x l)) in Hz.
      destruct Hz as [<- | Hz]; [| now apply Hy].
      destruct (String.leb_total (fst x) (fst y)) as [Ht | Ht]; [congruence | exact Ht].
Qed.

Lemma sorted_items_sorted {A} (l : list (string * A)) :
  StronglySorted item_le (sorted_items l).
Proof.
  induction l as [| x l IH]; simpl; [constructor | now apply insert_item_sorted].
Qed.

Lemma StronglySorted_app {A} (R : A -> A -> Prop) (l1 l2 : list A) :
  StronglySorted R l1 -> StronglySorted R l2 ->
  (forall x y, In x l1 -> In y l2 -> R x y) ->
  StronglySorted R (l1 ++ l2).
Proof.
  induction 1 as [| x l1 Hs IH Hx]; intros H2 Hcross; simpl; [exact H2 |].
  constructor.
  - apply IH; [exact H2 | intros; apply Hcross; [now right | assumption]].
  - apply Forall_app. split; [exact Hx |].
    rewrite Forall_forall. intros y Hy. apply Hcross; [now left | exact Hy].
Qed.

Lemma Forall2_right {A B} (P : A -> B -> Prop) (Q : B -> Prop) (l : list A) (l' : list B) :
  (forall a b, P a b -> Q b) -> Forall2 P l l' -> Forall Q l'.
Proof. intros HPQ. induction 1; constructor; eauto. Qed.

Section ParallelLists.
Context {F : Type} {ops : NumpyOps F}.
Variable image_embedding : list byte -> result (vec F).
Variable read_bytes : Path -> result (list byte).
Variable suffix_lower : Path -> string.
Variable save_image : Path -> bool.
Variable fit_predict : Z -> matrix F -> result (list nat).

Lemma stack_rows (l : list (vec F)) (X : matrix F) :
  stack l = Ok X -> X = Matrix (ncols X) l /\ l <> [].
Proof.
  unfold stack. destruct l as [| a l]; [discriminate |].
  destruct (forallb _ _); [| discriminate].
  intros [= <-]. split; [reflexivity | discriminate].
Qed.

Lemma clusters_fold (nm : string) (paths : list Path) (rep : option string)
      (X : matrix F) (labels : list nat) (cs : list nat) :
  incl (rows X) (successes image_embedding read_bytes paths) ->
  forall out : output,
  exists new_vectors new_meta,
    fold_left (append_cluster nm rep X labels) cs out
    = mkOutput (vectors out ++ new_vectors) (meta out ++ new_meta)
    /\ Forall2 (entity_pair image_embedding read_bytes nm paths) new_vectors new_meta.
Proof.
  intros Hincl. induction cs as [| c cs IH]; intros out; simpl.
  - exists [], []. rewrite !app_nil_r. destruct out. split; [reflexivity | constructor].
  - unfold append_cluster at 2.
    destruct (Nat.eqb (nrows (members X labels c) * ncols (members X labels c)) 0) eqn:E.
    + apply IH.
    + destruct (IH (mkOutput
                      (vectors out ++ [normalize (mean_axis0 (members X labels c))])
                      (meta out ++ [mkMeta (Some nm) rep (Some c)])))
        as (nv & nmeta & -> & Hpairs).
      exists (normalize (mean_axis0 (members X labels c)) :: nv),
             (mkMeta (Some nm) rep (Some c) :: nmeta).
      simpl. rewrite <- !app_assoc. split; [reflexivity |].
      constructor; [| exact Hpairs].
      split; [reflexivity |].
      exists (ncols X), (rows (members X labels c)). repeat split.
      * intros Hnil. apply Nat.eqb_neq in E. unfold nrows in E. rewrite Hnil in E.
        simpl in E. lia.
      * intros u Hu. apply Hincl. unfold members in Hu. simpl in Hu.
        apply in_map_iff in Hu as ([u' l] & <- & Hin).
        apply filter_In in Hin as [Hin _]. now apply in_combine_l in Hin.
Qed.

Lemma actor_step_pairs (c : Z) (nm : string) (paths : list Path)
      (out out' : output) (dir dir' : images_dir) :
  actor_step image_embedding read_bytes suffix_lower save_image fit_predict
             c nm paths out dir = Ok (out', dir') ->
  exists new_vectors new_meta,
    out' = mkOutput (vectors out ++ new_vectors) (meta out ++ new_meta)
    /\ Forall2 (entity_pair image_embedding read_bytes nm paths) new_vectors new_meta.
Proof.
  assert (Hnone : forall d0, Ok (out, d0) = Ok (out', dir') ->
            exists new_vectors new_meta,
              out' = mkOutput (vectors out ++ new_vectors) (meta out ++ new_meta)
              /\ Forall2 (entity_pair image_embedding read_bytes nm paths) new_vectors new_meta).
  { intros d0 [= <- _]. exists [], []. rewrite !app_nil_r. destruct out.
    split; [reflexivity | constructor]. }
  unfold actor_step. destruct paths as [| p paths]; [apply Hnone |].
  set (st := sample_paths _ _ _ _ nm (p :: paths) dir).
  pose proof (embs_sample_paths image_embedding read_bytes suffix_lower save_image
                nm (p :: paths) dir) as Hembs.
  fold st in Hembs.
  destruct (embs st) as [| v vs] eqn:Ev; [apply Hnone |].
  destruct (stack (v :: vs)) as [X |] eqn:Hst; [| discriminate].
  apply stack_rows in Hst as [HX _].
  assert (Hrows : rows X = successes image_embedding read_bytes (p :: paths)).
  { rewrite HX. simpl. exact Hembs. }
  assert (Hmean : forall d0,
             Ok (append_mean nm (rep_rel st) X out, d0) = Ok (out', dir') ->
             exists new_vectors new_meta,
               out' = mkOutput (vectors out ++ new_vectors) (meta out ++ new_meta)
               /\ Forall2 (entity_pair image_embedding read_bytes nm (p :: paths))
                          new_vectors new_meta).
  { intros d0 [= <- _]. unfold append_mean.
    exists [normalize (mean_axis0 X)], [mkMeta (Some nm) (rep_rel st) None].
    split; [reflexivity |]. constructor; [| constructor].
    split; [reflexivity |].
    exists (ncols X), (rows X). split; [| split].
    - rewrite Hrows, <- Hembs. discriminate.
    - rewrite Hrows. apply incl_refl.
    - now destruct X. }
  destruct ((c >? 1) && (Z.of_nat (length (v :: vs)) >=? c)); [| apply Hmean].
  destruct (fit_predict c X) as [labels |]; [| apply Hmean].
  destruct (Nat.eqb (length labels) (nrows X)); [| apply Hmean].
  intros [= <- _].
  apply clusters_fold. rewrite Hrows. apply incl_refl.
Qed.

Lemma actors_loop_pairs (c : Z) (items : list (string * list Path)) :
  forall (out out' : output) (dir dir' : images_dir),
    actors_loop image_embedding read_bytes suffix_lower save_image fit_predict
                c items out dir = Ok (out', dir') ->
    exists new_vectors new_meta,
      out' = mkOutput (vectors out ++ new_vectors) (meta out ++ new_meta)
      /\ Forall2 (built_from image_embedding read_bytes items) new_vectors new_meta
      /\ (StronglySorted item_le items -> StronglySorted meta_le new_meta).
Proof.
  induction items as [| [nm paths] items IH]; intros out out' dir dir'; simpl.
  - intros [= <- _]. exists [], []. rewrite !app_nil_r. destruct out.
    repeat split; constructor.
  - destruct (actor_step _ _ _ _ _ c nm paths out dir) as [[out1 dir1] |] eqn:Hstep;
      [| discriminate].
    intros Hloop.
    apply actor_step_pairs in Hstep as (nv1 & nm1 & -> & Hp1).
    apply IH in Hloop as (nv2 & nm2 & -> & Hp2 & Hs2). simpl.
    exists (nv1 ++ nv2), (nm1 ++ nm2). rewrite !app_assoc.
    split; [reflexivity |]. split.
    + apply Forall2_app.
      * eapply Forall2_impl; [| exact Hp1].
        intros r m [Hn (D & vs & Hne & Hincl & Hr)].
        exists nm, paths, D, vs. repeat split; auto. now left.
      * eapply Forall2_impl; [| exact Hp2].
        intros r m (n' & ps' & D & vs & Hn & Hin & Hrest).
        exists n', ps', D, vs. repeat split; try tauto. now right.
    + intros Hsorted. inversion Hsorted as [| ? ? Hs' Hall]; subst.
      assert (Hblock : Forall (fun m => name m = Some nm) nm1).
      { eapply Forall2_right; [| exact Hp1]. intros r m [Hn _]. exact Hn. }
      assert (Hlater : Forall (fun m => exists n' ps', name m = Some n' /\ In (n', ps') items) nm2).
      { eapply Forall2_right; [| exact Hp2].
        intros r m (n' & ps' & _ & _ & Hn & Hin & _). eauto. }
      rewrite Forall_forall in Hblock, Hlater, Hall.
      apply StronglySorted_app; [| now apply Hs2 |].
      * clear - Hblock. induction nm1 as [| m nm1 IHb]; constructor.
        -- apply IHb. intros x Hx. apply Hblock. now right.
        -- rewrite Forall_forall. intros y Hy. unfold meta_le.
           rewrite (Hblock m (or_introl eq_refl)), (Hblock y (or_intror Hy)).
           apply string_leb_refl.
      * intros x y Hx Hy. unfold meta_le. rewrite (Hblock x Hx).
        destruct (Hlater y Hy) as (n' & ps' & -> & Hin).
        exact (Hall (n', ps') Hin).
Qed.

(** The builder's two outputs: as many rows as entries, entries in name
    order, each row built from the entity its entry names. *)
Lemma compute_actor_vectors_parallel (groups : list (string * list Path)) (c : Z)
      (dir dir' : images_dir) (emb : matrix F) (metadata : list Meta) :
  compute_actor_vectors image_embedding read_bytes suffix_lower save_image fit_predict
                        groups c dir = Ok (emb, metadata, dir') ->
  nrows emb = length metadata
  /\ StronglySorted meta_le metadata
  /\ Forall2 (built_from image_embedding read_bytes groups) (rows emb) metadata.
Proof.
  unfold compute_actor_vectors.
  destruct (actors_loop _ _ _ _ _ c (sorted_items groups) (mkOutput [] []) dir)
    as [[out dir1] |] eqn:Hloop; [| discriminate].
  apply actors_loop_pairs in Hloop as (nv & nmeta & -> & Hpairs & Hsorted).
  cbn [vectors meta app].
  destruct (stack nv) as [X |] eqn:Hst; [| discriminate].
  intros [= <- <- _]. apply stack_rows in Hst as [HX _].
  assert (Hrows : rows X = nv) by (rewrite HX; reflexivity).
  unfold nrows. rewrite Hrows. repeat split.
  - exact (Forall2_length Hpairs).
  - apply Hsorted, sorted_items_sorted.
  - eapply Forall2_impl; [| exact Hpairs].
    intros r m (n' & ps' & D & vs & Hn & Hin & Hrest).
    exists n', ps', D, vs. repeat split; try tauto.
    apply (Permutation_in _ (sorted_items_perm groups)). exact Hin.
Qed.

End ParallelLists.

(** ** build_actor_index.py and search.py: the rows after loading *)

Section LoadedNorms.
Local Open Scope R_scope.




End LoadedNorms.




(** * Further properties of the code *)

(** ** search.py: the cached index *)

Section IndexLifecycleFacts.
Context {F : Type} {ops : NumpyOps F}.

Lemma ensure_loaded_ok (d : Disk F) (self self' : ActorIndex F) :
  ensure_loaded d self = (self', Ok tt) ->
  _loaded self' = true
  /\ ((_loaded self = true /\ self' = self)
      \/ (_loaded self = false
          /\ exists e m,
              embeddings_npy d = Some e /\ metadata_json d = Some m
              /\ length m = nrows e
              /\ self' = mkActorIndex true (Some (normalize_rows e)) (Some m))).
Proof.
  unfold ensure_loaded. destruct (_loaded self) eqn:Hl.
  - intros [= <-]. auto.
  - destruct (embeddings_npy d) as [e |]; [| discriminate].
    destruct (metadata_json d) as [m |]; [| discriminate].
    simpl. destruct (Nat.eqb (length m) (nrows (normalize_rows e))) eqn:E;
      simpl; [| discriminate].
    intros [= <-]. split; [reflexivity |]. right. split; [reflexivity |].
    exists e, m. apply Nat.eqb_eq in E. rewrite nrows_normalize_rows in E. auto.
Qed.

Lemma ensure_loaded_consistent (d : Disk F) (self self' : ActorIndex F) (r : result unit) :
  consistent self -> ensure_loaded d self = (self', r) -> consistent self'.
Proof.
  intros Hc He. destruct r as [[] | ex].
  - apply ensure_loaded_ok in He as [_ [[_ ->] | (_ & e & m & _ & _ & Hlen & ->)]];
      [exact Hc |].
    intros _. exists (normalize_rows e), m. rewrite nrows_normalize_rows. auto.
  - apply ensure_loaded_raise_flag in He. intros Hl. congruence.
Qed.

Lemma topk_state (d : Disk F) (self self' : ActorIndex F) q k r :
  topk d self q k = (self', r) ->
  exists r0, ensure_loaded d self = (self', r0)
             /\ (forall top, r = Ok top -> r0 = Ok tt).
Proof.
  unfold topk. destruct (ensure_loaded d self) as [s1 [[] | ex]].
  - destruct (_emb s1); [destruct (matvec _ _) |]; intros [= <- <-];
      eexists; split; try reflexivity; auto.
  - intros [= <- <-]. eexists; split; [reflexivity | discriminate].
Qed.

Lemma topk_consistent (d : Disk F) (self self' : ActorIndex F) q k r :
  consistent self -> topk d self q k = (self', r) -> consistent self'.
Proof.
  intros Hc Ht. apply topk_state in Ht as (r0 & He & _).
  eapply ensure_loaded_consistent; eauto.
Qed.

Lemma run_requests_consistent (reqs : list (Disk F * vec F * Z)) :
  forall self, consistent self -> consistent (fst (run_requests self reqs)).
Proof.
  induction reqs as [| [[d q] k] reqs IH]; intros self Hc; simpl; [exact Hc |].
  destruct (topk d self q k) as [s1 r] eqn:Ht.
  specialize (IH s1 (topk_consistent d self s1 q k r Hc Ht)).
  destruct (run_requests s1 reqs) as [s2 rs]. exact IH.
Qed.

End IndexLifecycleFacts.

(** X1.  Once a load has gone through, the files are not read again: a
    later [topk] gives the same answer whatever is on disk by then, also
    when the files are gone, and leaves the index as it is. *)
Theorem cached_index_ignores_disk
        {F : Type} {ops : NumpyOps F}
        (d d' : Disk F) (self self' : ActorIndex F) (q : vec F) (k : Z) :
  ensure_loaded d self = (self', Ok tt) ->
  topk d' self' q k = topk d self' q k
  /\ fst (topk d' self' q k) = self'.
Proof.
  intros He. apply ensure_loaded_ok in He as [Hl _].
  unfold topk. rewrite !(ensure_loaded_cached _ self' Hl).
  split; [reflexivity |].
  destruct (_emb self'); [destruct (matvec _ _) |]; reflexivity.
Qed.

Lemma cached_index_ignores_disk_witness :
  topk empty_disk (fst (ensure_loaded sample_disk INDEX0)) [1; 0]%R 1
  = topk sample_disk (fst (ensure_loaded sample_disk INDEX0)) [1; 0]%R 1.
Proof.
  exact (proj1 (@cached_index_ignores_disk R R_ops sample_disk empty_disk INDEX0
                  (fst (ensure_loaded sample_disk INDEX0)) [1; 0]%R 1 eq_refl)).
Defined.

(** X2.  A query whose length differs from the index's dimension makes
    [topk] raise [ValueError] (from the matrix product) and leaves the
    loaded index as it is; [match_actors] turns it into status 500. *)
Theorem wrong_dimension_is_500
        {F : Type} {ops : NumpyOps F}
        (image_embedding : list byte -> result (vec F))
        (d : Disk F) (INDEX : ActorIndex F) (emb : matrix F)
        (file : UploadFile) (q : vec F) (top_k : Z) :
  _loaded INDEX = true ->
  _emb INDEX = Some emb ->
  length q <> ncols emb ->
  (exists msg, topk d INDEX q top_k = (INDEX, Raise (Exn ValueError msg)))
  /\ (not_an_image file = false ->
      too_large (contents file) = false ->
      image_embedding (contents file) = Ok q ->
      exists detail,
        match_actors image_embedding d INDEX file top_k
        = (INDEX, HTTPException 500 detail)).
Proof.
  intros Hl He Hq.
  assert (Ht : topk d INDEX q top_k
               = (INDEX, Raise (Exn ValueError
                    "matmul: Input operand 1 has a mismatch in its core dimension 0"))).
  { unfold topk. rewrite (ensure_loaded_cached d INDEX Hl), He. unfold matvec.
    rewrite length_normalize.
    destruct (Nat.eqb (length q) (ncols emb)) eqn:E; [| reflexivity].
    apply Nat.eqb_eq in E. contradiction. }
  split; [eexists; exact Ht |].
  intros Himg Hsize Hemb. unfold match_actors.
  rewrite Himg, Hsize, Hemb, Ht. simpl. eexists; reflexivity.
Qed.

Lemma wrong_dimension_is_500_witness :
  exists msg,
    topk empty_disk sample_index [1; 0; 0]%R 3 = (sample_index, Raise (Exn ValueError msg)).
Proof.
  exact (proj1 (@wrong_dimension_is_500 R R_ops sample_embedding empty_disk sample_index
                  sample_emb png_file [1; 0; 0]%R 3 eq_refl eq_refl
                  ltac:(cbv; discriminate))).
Defined.



(** X4.  In every state the index can reach from a fresh [ActorIndex] by
    [topk] calls, whatever the files were at each call, a [topk] that
    answers leaves an index on which [info] succeeds for every row it
    returned, with that row's metadata entry. *)
Theorem info_succeeds_on_topk_rows
        {F : Type} {ops : NumpyOps F} {laws : NumpyLaws F}
        (reqs : list (Disk F * vec F * Z))
        (d : Disk F) (q : vec F) (k : Z)
        (self' : ActorIndex F) (top : list (nat * F)) :
  topk d (fst (run_requests INDEX0 reqs)) q k = (self', Ok top) ->
  exists m,
    _meta self' = Some m
    /\ Forall (fun p => exists entry,
                  nth_error m (fst p) = Some entry
                  /\ info self' (fst p) = Ok entry) top.
Proof.
  intros Ht.
  assert (Hc0 : consistent (F := F) INDEX0) by (intros Hl; discriminate Hl).
  pose proof (run_requests_consistent reqs INDEX0 Hc0) as Hc.
  set (s := fst (run_requests INDEX0 reqs)) in *.
  pose proof (topk_consistent d s self' q k (Ok top) Hc Ht) as Hc'.
  destruct (topk_state d s self' q k (Ok top) Ht) as (r0 & He & Hr0).
  rewrite (Hr0 top eq_refl) in He.
  pose proof (ensure_loaded_ok d s self' He) as [Hl' _].
  destruct (Hc' Hl') as (emb & m & Hemb & Hmeta & Hlen).
  exists m. split; [exact Hmeta |].
  assert (Hl2 : ensure_loaded d self' = (self', Ok tt)) by now apply ensure_loaded_cached.
  (* the answer is the one computed on the state after loading *)
  assert (Hsame : topk d s q k = topk d self' q k).
  { unfold topk. rewrite He, Hl2. reflexivity. }
  rewrite Hsame in Ht.
  unfold topk in Ht. rewrite Hl2, Hemb in Ht.
  destruct (matvec emb (normalize q)) as [sims |] eqn:Hmv; [| discriminate].
  injection Ht as <-.
  assert (Hsims : length sims = nrows emb).
  { unfold matvec in Hmv. destruct (Nat.eqb _ _); [| discriminate].
    injection Hmv as <-. apply length_map. }
  rewrite Forall_forall. intros p Hp.
  apply in_map_iff in Hp as (i & <- & Hi). simpl.
  apply In_py_take, argsort_in_range in Hi.
  rewrite length_map, Hsims, <- Hlen in Hi.
  destruct (nth_error m i) as [entry |] eqn:Hn.
  - exists entry. split; [reflexivity |]. unfold info. now rewrite Hmeta, Hn.
  - apply nth_error_None in Hn. lia.
Qed.

Lemma info_succeeds_on_topk_rows_witness :
  exists m,
    _meta (fst (topk sample_disk INDEX0 [1; 0]%R 1)) = Some m
    /\ Forall (fun p => exists entry,
                  nth_error m (fst p) = Some entry
                  /\ info (fst (topk sample_disk INDEX0 [1; 0]%R 1)) (fst p) = Ok entry)
              (map (fun i => (i, nth i (sims_of (normalize_rows sample_emb) [1; 0]%R) 0%R))
                   (py_take 1 (argsort (map f_neg
                      (sims_of (normalize_rows sample_emb) [1; 0]%R))))).
Proof.
  exact (@info_succeeds_on_topk_rows R R_ops R_laws [] sample_disk [1; 0]%R 1
           _ _ eq_refl).
Defined.

(** ** main.py: what the handlers return *)

Section ResponseFacts.
Context {F : Type} {ops : NumpyOps F}.



End ResponseFacts.



(** ** main.py: the two handlers side by side *)


Section BatchStatus.
Context {F : Type} {ops : NumpyOps F}.
Variable image_embedding : list byte -> result (vec F).
Variable d : Disk F.
Variable top_k : Z.

Lemma batch_loop_outcomes (files : list UploadFile) :
  forall (INDEX : ActorIndex F) (outputs : list (batch_item F)),
    (exists new,
        snd (batch_loop image_embedding d INDEX files top_k outputs)
        = Return (outputs ++ new)
        /\ map (@item_filename F) new = map filename files)
    \/ (exists detail,
           snd (batch_loop image_embedding d INDEX files top_k outputs)
           = HTTPException 503 detail).
Proof.
  induction files as [| f files IH]; intros INDEX outputs; simpl.
  - left. exists []. now rewrite app_nil_r.
  - assert (Hnext : forall I1 it,
               item_filename it = filename f ->
               (exists new,
                   snd (batch_loop image_embedding d I1 files top_k (outputs ++ [it]))
                   = Return (outputs ++ new)
                   /\ map (@item_filename F) new = map filename (f :: files))
               \/ (exists detail,
                      snd (batch_loop image_embedding d I1 files top_k (outputs ++ [it]))
                      = HTTPException 503 detail)).
    { intros I1 it Hit.
      destruct (IH I1 (outputs ++ [it])) as [(new & Hr & Hn) | Hr]; [left | now right].
      exists (it :: new). rewrite Hr, <- app_assoc. simpl. now rewrite Hit, Hn. }
    destruct (not_an_image f); [now apply Hnext |].
    destruct (too_large (contents f)); [now apply Hnext |].
    destruct (batch_try image_embedding d INDEX (contents f) top_k) as [I1 [items | e]].
    + now apply Hnext.
    + destruct (is_file_not_found e); [| now apply Hnext].
      right. eexists. reflexivity.
Qed.

End BatchStatus.

(** X7.  Whatever the files, the encoder and the index do, the batch
    handler answers 200, 400 or 503, and 400 only for an empty upload
    list; it never answers 413 or 500 and lets no exception through.  A
    200 response lists the uploaded file names in upload order. *)
Theorem batch_status_codes
        {F : Type} {ops : NumpyOps F}
        (image_embedding : list byte -> result (vec F))
        (d : Disk F) (INDEX : ActorIndex F) (files : list UploadFile) (top_k : Z) :
  (files = [] /\ exists detail,
      match_actors_batch image_embedding d INDEX files top_k
      = (INDEX, HTTPException 400 detail))
  \/ (files <> [] /\ exists outputs,
        snd (match_actors_batch image_embedding d INDEX files top_k) = Return outputs
        /\ map (@item_filename F) outputs = map filename files)
  \/ (files <> [] /\ exists detail,
        snd (match_actors_batch image_embedding d INDEX files top_k)
        = HTTPException 503 detail).
Proof.
  destruct files as [| f files].
  - left. split; [reflexivity |]. eexists. reflexivity.
  - right.
    assert (Hb : match_actors_batch image_embedding d INDEX (f :: files) top_k
                 = batch_loop image_embedding d INDEX (f :: files) top_k [])
      by reflexivity.
    rewrite Hb.
    destruct (batch_loop_outcomes image_embedding d top_k (f :: files) INDEX [])
      as [(new & Hr & Hn) | Hr].
    + left. split; [discriminate |]. exists new. auto.
    + right. split; [discriminate | exact Hr].
Qed.

Section CorruptIndexFacts.
Context {F : Type} {ops : NumpyOps F}.
Variable image_embedding : list byte -> result (vec F).
Hypothesis encoder_errors :
  forall bytes e, image_embedding bytes = Raise e -> is_file_not_found e = false.
Variable d : Disk F.
Variable e0 : matrix F.
Variable m0 : list Meta.
Hypothesis Hemb : embeddings_npy d = Some e0.
Hypothesis Hmeta : metadata_json d = Some m0.
Hypothesis Hmismatch : length m0 <> nrows e0.
Variable top_k : Z.

Lemma topk_corrupt (INDEX : ActorIndex F) (q : vec F) :
  _loaded INDEX = false ->
  topk d INDEX q top_k
  = (mkActorIndex false (Some (normalize_rows e0)) (Some m0), Raise row_count_mismatch).
Proof.
  intros Hl. apply topk_raise_of_ensure.
  now apply ensure_loaded_mismatch.
Qed.

Lemma batch_loop_corrupt (files : list UploadFile) :
  forall (INDEX : ActorIndex F) (outputs : list (batch_item F)),
    _loaded INDEX = false ->
    exists new,
      snd (batch_loop image_embedding d INDEX files top_k outputs)
      = Return (outputs ++ new)
      /\ length new = length files
      /\ Forall (fun it => has_error it = true) new.
Proof.
  induction files as [| f files IH]; intros INDEX outputs Hl; simpl.
  - exists []. rewrite app_nil_r. repeat split. constructor.
  - assert (Hnext : forall I1 msg,
               _loaded I1 = false ->
               exists new,
                 snd (batch_loop image_embedding d I1 files top_k
                        (outputs ++ [ErrorItem (filename f) msg]))
                 = Return (outputs ++ new)
                 /\ length new = S (length files)
                 /\ Forall (fun it => has_error it = true) new).
    { intros I1 msg Hl1.
      destruct (IH I1 (outputs ++ [ErrorItem (filename f) msg]) Hl1)
        as (new & Hr & Hlen & Hall).
      exists (ErrorItem (filename f) msg :: new).
      rewrite Hr, <- app_assoc. simpl. repeat split; [now rewrite Hlen |].
      now constructor. }
    destruct (not_an_image f); [now apply Hnext |].
    destruct (too_large (contents f)); [now apply Hnext |].
    unfold batch_try. destruct (image_embedding (contents f)) as [q | e] eqn:He.
    + rewrite (topk_corrupt INDEX q Hl). simpl. now apply Hnext.
    + rewrite (encoder_errors _ _ He). now apply Hnext.
Qed.

End CorruptIndexFacts.

(** X8.  With both files on disk but of different lengths, and an encoder
    whose failures are not [FileNotFoundError], the two endpoints differ:
    [match_actors] answers an accepted upload with status 500, while the
    batch handler answers 200 with one item per file, every item an
    error. *)
Theorem corrupt_index_responses
        {F : Type} {ops : NumpyOps F}
        (image_embedding : list byte -> result (vec F))
        (d : Disk F) (INDEX : ActorIndex F) (e0 : matrix F) (m0 : list Meta)
        (files : list UploadFile) (top_k : Z) :
  (forall bytes e, image_embedding bytes = Raise e -> is_file_not_found e = false) ->
  _loaded INDEX = false ->
  embeddings_npy d = Some e0 ->
  metadata_json d = Some m0 ->
  length m0 <> nrows e0 ->
  files <> [] ->
  (forall file q,
      not_an_image file = false ->
      too_large (contents file) = false ->
      image_embedding (contents file) = Ok q ->
      status (snd (match_actors image_embedding d INDEX file top_k)) = 500)
  /\ exists outputs,
      snd (match_actors_batch image_embedding d INDEX files top_k) = Return outputs
      /\ length outputs = length files
      /\ Forall (fun it => has_error it = true) outputs.
Proof.
  intros Henc Hl He Hm Hne Hfiles. split.
  - intros file q Himg Hsize Hq. unfold match_actors.
    rewrite Himg, Hsize, Hq, (topk_corrupt d e0 m0 He Hm Hne top_k INDEX q Hl).
    reflexivity.
  - assert (Hb : match_actors_batch image_embedding d INDEX files top_k
                 = batch_loop image_embedding d INDEX files top_k [])
      by (destruct files; [contradiction | reflexivity]).
    rewrite Hb.
    exact (batch_loop_corrupt image_embedding Henc d e0 m0 He Hm Hne top_k files
             INDEX [] Hl).
Qed.

Lemma corrupt_index_responses_witness :
  status (snd (match_actors sample_embedding corrupt_disk INDEX0 png_file 3)) = 500
  /\ exists outputs,
      snd (match_actors_batch sample_embedding corrupt_disk INDEX0
             [png_file; corrupt_file] 3) = Return outputs
      /\ length outputs = 2%nat.
Proof.
  destruct (@corrupt_index_responses R R_ops sample_embedding corrupt_disk INDEX0
              sample_emb [mkMeta (Some "Ada") None None] [png_file; corrupt_file] 3
              sample_embedding_errors eq_refl eq_refl eq_refl
              ltac:(cbv; discriminate) ltac:(discriminate))
    as (Hsingle & outputs & Hr & Hlen & _).
  split.
  - exact (Hsingle png_file [1; 0]%R eq_refl (small_blob 16 eq_refl) eq_refl).
  - exists outputs. split; [exact Hr | exact Hlen].
Defined.

(** ** build_actor_index.py: what the output does not depend on *)

Lemma insert_item_map_snd {A B} (f : A -> B) (x : string * A) (l : list (string * A)) :
  insert_item (fst x, f (snd x)) (map (fun g => (fst g, f (snd g))) l)
  = map (fun g => (fst g, f (snd g))) (insert_item x l).
Proof.
  induction l as [| y l IH]; simpl; [reflexivity |].
  destruct (String.leb (fst x) (fst y)); simpl; [reflexivity | now rewrite IH].
Qed.

Lemma sorted_items_map_snd {A B} (f : A -> B) (l : list (string * A)) :
  sorted_items (map (fun g => (fst g, f (snd g))) l)
  = map (fun g => (fst g, f (snd g))) (sorted_items l).
Proof.
  induction l as [| x l IH]; simpl; [reflexivity |].
  now rewrite IH, insert_item_map_snd.
Qed.

Section BuilderIndependence.
Context {F : Type} {ops : NumpyOps F}.
Variable image_embedding : list byte -> result (vec F).
Variable read_bytes : Path -> result (list byte).
Variable suffix_lower : Path -> string.
Variable save_image : Path -> bool.
Variable fit_predict : Z -> matrix F -> result (list nat).

Lemma actor_step_firstn (c : Z) (nm : string) (paths : list Path)
      (out : output) (dir : images_dir) :
  actor_step image_embedding read_bytes suffix_lower save_image fit_predict
             c nm (firstn 20 paths) out dir
  = actor_step image_embedding read_bytes suffix_lower save_image fit_predict
               c nm paths out dir.
Proof.
  unfold actor_step, sample_paths. rewrite firstn_firstn.
  change (Nat.min 20 20) with 20%nat.
  destruct paths; reflexivity.
Qed.

Lemma actors_loop_firstn (c : Z) (items : list (string * list Path)) :
  forall (out : output) (dir : images_dir),
    actors_loop image_embedding read_bytes suffix_lower save_image fit_predict
                c (map (fun g => (fst g, firstn 20 (snd g))) items) out dir
    = actors_loop image_embedding read_bytes suffix_lower save_image fit_predict
                  c items out dir.
Proof.
  induction items as [| [nm paths] items IH]; intros out dir;
    cbn [map actors_loop fst snd]; [reflexivity |].
  rewrite actor_step_firstn.
  destruct (actor_step _ _ _ _ _ c nm paths out dir) as [[out1 dir1] |];
    [apply IH | reflexivity].
Qed.

(** Without a clustering that answers, every cluster count behaves as 1. *)
Lemma actor_step_no_clustering (c : Z) (nm : string) (paths : list Path)
      (out : output) (dir : images_dir) :
  (forall n X, exists e, fit_predict n X = Raise e) ->
  actor_step image_embedding read_bytes suffix_lower save_image fit_predict
             c nm paths out dir
  = actor_step image_embedding read_bytes suffix_lower save_image fit_predict
               1 nm paths out dir.
Proof.
  intros Hfail. unfold actor_step. destruct paths as [| p paths]; [reflexivity |].
  destruct (embs _) as [| v vs]; [reflexivity |].
  destruct (stack (v :: vs)) as [X |]; [| reflexivity].
  change (1 >? 1) with false. cbn [andb].
  destruct ((c >? 1) && (Z.of_nat (length (v :: vs)) >=? c)); [| reflexivity].
  destruct (Hfail c X) as [e ->]. reflexivity.
Qed.

Lemma actors_loop_no_clustering (c : Z) (items : list (string * list Path)) :
  (forall n X, exists e, fit_predict n X = Raise e) ->
  forall (out : output) (dir : images_dir),
    actors_loop image_embedding read_bytes suffix_lower save_image fit_predict
                c items out dir
    = actors_loop image_embedding read_bytes suffix_lower save_image fit_predict
                  1 items out dir.
Proof.
  intros Hfail.
  induction items as [| [nm paths] items IH]; intros out dir;
    cbn [actors_loop]; [reflexivity |].
  rewrite (actor_step_no_clustering c nm paths out dir Hfail).
  destruct (actor_step _ _ _ _ _ 1 nm paths out dir) as [[out1 dir1] |];
    [apply IH | reflexivity].
Qed.

End BuilderIndependence.

(** X9.  Paths after the 20th of an entity play no part: the builder
    returns the same matrix, metadata and image folder, or raises the same
    exception, when every path list is cut after its 20th entry, for
    every cluster count. *)
Theorem paths_beyond_20_ignored
        {F : Type} {ops : NumpyOps F}
        (image_embedding : list byte -> result (vec F))
        (read_bytes : Path -> result (list byte))
        (suffix_lower : Path -> string) (save_image : Path -> bool)
        (fit_predict : Z -> matrix F -> result (list nat))
        (groups : list (string * list Path)) (clusters_per_actor : Z)
        (dir : images_dir) :
  compute_actor_vectors image_embedding read_bytes suffix_lower save_image fit_predict
                        (truncate_groups groups) clusters_per_actor dir
  = compute_actor_vectors image_embedding read_bytes suffix_lower save_image fit_predict
                          groups clusters_per_actor dir.
Proof.
  unfold compute_actor_vectors, truncate_groups.
  rewrite (sorted_items_map_snd (firstn 20) groups), actors_loop_firstn.
  reflexivity.
Qed.

(** X10.  When clustering never answers (sklearn cannot be imported, or
    [fit_predict] raises), the builder's result for any requested cluster
    count is its result for the count 1: one renormalised mean per
    entity. *)
Theorem clustering_failure_falls_back
        {F : Type} {ops : NumpyOps F}
        (image_embedding : list byte -> result (vec F))
        (read_bytes : Path -> result (list byte))
        (suffix_lower : Path -> string) (save_image : Path -> bool)
        (fit_predict : Z -> matrix F -> result (list nat))
        (groups : list (string * list Path)) (clusters_per_actor : Z)
        (dir : images_dir) :
  (forall n X, exists e, fit_predict n X = Raise e) ->
  compute_actor_vectors image_embedding read_bytes suffix_lower save_image fit_predict
                        groups clusters_per_actor dir
  = compute_actor_vectors image_embedding read_bytes suffix_lower save_image fit_predict
                          groups 1 dir.
Proof.
  intros Hfail. unfold compute_actor_vectors.
  now rewrite (actors_loop_no_clustering image_embedding read_bytes suffix_lower
                 save_image fit_predict clusters_per_actor (sorted_items groups) Hfail).
Qed.

Lemma clustering_failure_falls_back_witness :
  compute_actor_vectors sample_embedding sample_read sample_suffix sample_save
                        no_sklearn sample_groups 2 []
  = compute_actor_vectors sample_embedding sample_read sample_suffix sample_save
                          no_sklearn sample_groups 1 [].
Proof.
  apply (@clustering_failure_falls_back R R_ops).
  intros n X. eexists. reflexivity.
Defined.

(** ** build_actor_index.py: the representative images *)


Section RepresentativeImages.
Context {F : Type} {ops : NumpyOps F}.
Variable image_embedding : list byte -> result (vec F).
Variable read_bytes : Path -> result (list byte).
Variable suffix_lower : Path -> string.
Variable save_image : Path -> bool.
Variable fit_predict : Z -> matrix F -> result (list nat).





End RepresentativeImages.



Section ImageFolderIndependence.
Context {F : Type} {ops : NumpyOps F}.
Variable image_embedding : list byte -> result (vec F).
Variable read_bytes : Path -> result (list byte).
Variable fit_predict : Z -> matrix F -> result (list nat).
Variables suffix1 suffix2 : Path -> string.
Variables save1 save2 : Path -> bool.

Lemma same_rows_append (out1 out2 : output) (v : vec F) (m1 m2 : Meta) :
  same_rows out1 out2 -> without_rel m1 = without_rel m2 ->
  same_rows (mkOutput (vectors out1 ++ [v]) (meta out1 ++ [m1]))
            (mkOutput (vectors out2 ++ [v]) (meta out2 ++ [m2])).
Proof.
  intros [Hv Hm] Hw. split; simpl.
  - now rewrite Hv.
  - rewrite !map_app, Hm. simpl. now rewrite Hw.
Qed.

Lemma clusters_same_rows (nm : string) (rep1 rep2 : option string)
      (X : matrix F) (labels : list nat) (cs : list nat) :
  forall out1 out2,
    same_rows out1 out2 ->
    same_rows (fold_left (append_cluster nm rep1 X labels) cs out1)
              (fold_left (append_cluster nm rep2 X labels) cs out2).
Proof.
  induction cs as [| k cs IH]; intros out1 out2 Hs; simpl; [exact Hs |].
  apply IH. unfold append_cluster.
  destruct (Nat.eqb _ 0); [exact Hs |].
  now apply same_rows_append.
Qed.

Lemma actor_step_same_rows (c : Z) (nm : string) (paths : list Path)
      (out1 out2 : output) (dir1 dir2 : images_dir) :
  same_rows out1 out2 ->
  match actor_step image_embedding read_bytes suffix1 save1 fit_predict
                   c nm paths out1 dir1,
        actor_step image_embedding read_bytes suffix2 save2 fit_predict
                   c nm paths out2 dir2 with
  | Ok (o1, _), Ok (o2, _) => same_rows o1 o2
  | Raise e1, Raise e2 => e1 = e2
  | _, _ => False
  end.
Proof.
  intros Hs. unfold actor_step. destruct paths as [| p paths]; [exact Hs |].
  rewrite !embs_sample_paths.
  generalize (rep_rel (sample_paths image_embedding read_bytes suffix1 save1 nm
                                    (p :: paths) dir1)) as rep1.
  generalize (rep_rel (sample_paths image_embedding read_bytes suffix2 save2 nm
                                    (p :: paths) dir2)) as rep2.
  intros rep2 rep1.
  destruct (successes image_embedding read_bytes (p :: paths)) as [| v vs];
    [exact Hs |].
  destruct (stack (v :: vs)) as [X |]; [| reflexivity].
  assert (Hmean : same_rows (append_mean nm rep1 X out1) (append_mean nm rep2 X out2))
    by (unfold append_mean; now apply same_rows_append).
  destruct ((c >? 1) && (Z.of_nat (length (v :: vs)) >=? c)); [| exact Hmean].
  destruct (fit_predict c X) as [labels |]; [| exact Hmean].
  destruct (Nat.eqb (length labels) (nrows X)); [| exact Hmean].
  now apply clusters_same_rows.
Qed.

Lemma actors_loop_same_rows (c : Z) (items : list (string * list Path)) :
  forall (out1 out2 : output) (dir1 dir2 : images_dir),
    same_rows out1 out2 ->
    match actors_loop image_embedding read_bytes suffix1 save1 fit_predict
                      c items out1 dir1,
          actors_loop image_embedding read_bytes suffix2 save2 fit_predict
                      c items out2 dir2 with
    | Ok (o1, _), Ok (o2, _) => same_rows o1 o2
    | Raise e1, Raise e2 => e1 = e2
    | _, _ => False
    end.
Proof.
  induction items as [| [nm paths] items IH]; intros out1 out2 dir1 dir2 Hs;
    cbn [actors_loop]; [exact Hs |].
  pose proof (actor_step_same_rows c nm paths out1 out2 dir1 dir2 Hs) as Hstep.
  destruct (actor_step _ _ suffix1 save1 _ c nm paths out1 dir1) as [[o1 d1] |];
    destruct (actor_step _ _ suffix2 save2 _ c nm paths out2 dir2) as [[o2 d2] |];
    try contradiction; [now apply IH | exact Hstep].
Qed.

End ImageFolderIndependence.

(** X12.  The matrix and, apart from the image names, the metadata do not
    depend on the image folder: two runs on the same groups that differ in
    the folder's content, in whether saving an image works and in the file
    suffixes return the same matrix and the same names and cluster
    numbers, or raise the same exception. *)
Theorem rows_independent_of_image_folder
        {F : Type} {ops : NumpyOps F}
        (image_embedding : list byte -> result (vec F))
        (read_bytes : Path -> result (list byte))
        (fit_predict : Z -> matrix F -> result (list nat))
        (suffix1 suffix2 : Path -> string) (save1 save2 : Path -> bool)
        (groups : list (string * list Path)) (clusters_per_actor : Z)
        (dir1 dir2 : images_dir) :
  match compute_actor_vectors image_embedding read_bytes suffix1 save1 fit_predict
                              groups clusters_per_actor dir1,
        compute_actor_vectors image_embedding read_bytes suffix2 save2 fit_predict
                              groups clusters_per_actor dir2 with
  | Ok (emb1, meta1, _), Ok (emb2, meta2, _) =>
      emb1 = emb2 /\ map without_rel meta1 = map without_rel meta2
  | Raise e1, Raise e2 => e1 = e2
  | _, _ => False
  end.
Proof.
  unfold compute_actor_vectors.
  pose proof (actors_loop_same_rows image_embedding read_bytes fit_predict
                suffix1 suffix2 save1 save2 clusters_per_actor (sorted_items groups)
                (mkOutput [] []) (mkOutput [] []) dir1 dir2
                (conj eq_refl eq_refl)) as Hloop.
  destruct (actors_loop _ _ suffix1 save1 _ _ _ _ dir1) as [[o1 d1] |];
    destruct (actors_loop _ _ suffix2 save2 _ _ _ _ dir2) as [[o2 d2] |];
    try contradiction; [| exact Hloop].
  destruct Hloop as [Hv Hm]. rewrite Hv.
  destruct (stack (vectors o2)); [split; [reflexivity | exact Hm] | reflexivity].
Qed.

(** ** build_actor_index.py: [main] end to end *)

Section MainFacts.
Context {F : Type} {ops : NumpyOps F}.
Variable image_embedding : list byte -> result (vec F).
Variable read_bytes : Path -> result (list byte).
Variable suffix_lower : Path -> string.
Variable save_image : Path -> bool.
Variable fit_predict : Z -> matrix F -> result (list nat).

Lemma actor_step_no_success (c : Z) (nm : string) (paths : list Path)
      (out : output) (dir : images_dir) :
  successes image_embedding read_bytes paths = [] ->
  exists dir',
    actor_step image_embedding read_bytes suffix_lower save_image fit_predict
               c nm paths out dir = Ok (out, dir').
Proof.
  intros Hnone. unfold actor_step. destruct paths as [| p paths]; [eexists; reflexivity |].
  rewrite embs_sample_paths, Hnone. eexists; reflexivity.
Qed.

Lemma actors_loop_no_success (c : Z) (items : list (string * list Path)) :
  Forall (fun g => successes image_embedding read_bytes (snd g) = []) items ->
  forall (out : output) (dir : images_dir),
  exists dir',
    actors_loop image_embedding read_bytes suffix_lower save_image fit_predict
                c items out dir = Ok (out, dir').
Proof.
  induction 1 as [| [nm paths] items Hg _ IH]; intros out dir; cbn [actors_loop].
  - eexists; reflexivity.
  - destruct (actor_step_no_success c nm paths out dir Hg) as [dir1 ->]. apply IH.
Qed.

End MainFacts.

(** X13.  When images are found but none can be read and encoded, [main]
    does not stop with one of its own messages: the final [np.stack] of an
    empty list raises [ValueError], which nothing catches. *)
Theorem main_crashes_without_embeddings
        {F : Type} {ops : NumpyOps F}
        (image_embedding : list byte -> result (vec F))
        (read_bytes : Path -> result (list byte))
        (suffix_lower : Path -> string) (save_image : Path -> bool)
        (fit_predict : Z -> matrix F -> result (list nat))
        (iter_folder iter_csv : Path -> list (string * list Path))
        (ds : string) (csv_arg : option string) (clusters : Z) (dir : images_dir) :
  ds <> EmptyString ->
  iter_folder ds <> [] ->
  Forall (fun g => successes image_embedding read_bytes (snd g) = []) (iter_folder ds) ->
  main image_embedding read_bytes suffix_lower save_image fit_predict
       iter_folder iter_csv (mkArgs (Some ds) csv_arg clusters) dir
  = Crashed (Exn ValueError "need at least one array to stack").
Proof.
  intros Hds Hgroups Hnone. unfold main. simpl.
  replace (String.eqb ds EmptyString) with false
    by (symmetry; now apply String.eqb_neq).
  simpl. destruct (iter_folder ds) as [| g groups] eqn:Hg; [contradiction |].
  unfold compute_actor_vectors.
  assert (Hsorted : Forall (fun g => successes image_embedding read_bytes (snd g) = [])
                           (sorted_items (g :: groups))).
  { rewrite Forall_forall in *. intros x Hx. apply Hnone.
    apply (Permutation_in _ (sorted_items_perm (g :: groups))). exact Hx. }
  destruct (actors_loop_no_success image_embedding read_bytes suffix_lower save_image
              fit_predict (Z.max 1 clusters) _ Hsorted (mkOutput [] []) dir)
    as [dir' ->].
  reflexivity.
Qed.

Lemma main_crashes_without_embeddings_witness :
  main sample_embedding unreadable sample_suffix sample_save no_sklearn
       sample_iter_folder sample_iter_csv (mkArgs (Some "photos") None 1) []
  = Crashed (Exn ValueError "need at least one array to stack").
Proof.
  apply (@main_crashes_without_embeddings R R_ops); [discriminate | discriminate |].
  repeat constructor.
Defined.

Lemma compute_actor_vectors_nonempty
      {F : Type} {ops : NumpyOps F}
      (image_embedding : list byte -> result (vec F))
      (read_bytes : Path -> result (list byte))
      (suffix_lower : Path -> string) (save_image : Path -> bool)
      (fit_predict : Z -> matrix F -> result (list nat))
      (groups : list (string * list Path)) (c : Z) (dir dir' : images_dir)
      (emb : matrix F) (metadata : list Meta) :
  compute_actor_vectors image_embedding read_bytes suffix_lower save_image fit_predict
                        groups c dir = Ok (emb, metadata, dir') ->
  (1 <= nrows emb)%nat.
Proof.
  unfold compute_actor_vectors.
  destruct (actors_loop _ _ _ _ _ c (sorted_items groups) (mkOutput [] []) dir)
    as [[out dir1] |]; [| discriminate].
  destruct (stack (vectors out)) as [X |] eqn:Hst; [| discriminate].
  intros [= <- _ _]. apply stack_rows in Hst as [HX Hne].
  unfold nrows. rewrite HX. simpl. destruct (vectors out); [contradiction | simpl; lia].
Qed.

(** X14.  An index that [main] saves is never empty and always loads: the
    serving process, started fresh on the saved files, accepts them, and
    a query of the matrix's dimension with k >= 1 gets min(k, N) >= 1
    results. *)
Theorem saved_index_serves
        {F : Type} {ops : NumpyOps F} {laws : NumpyLaws F}
        (image_embedding : list byte -> result (vec F))
        (read_bytes : Path -> result (list byte))
        (suffix_lower : Path -> string) (save_image : Path -> bool)
        (fit_predict : Z -> matrix F -> result (list nat))
        (iter_folder iter_csv : Path -> list (string * list Path))
        (args : Args) (dir dir' : images_dir) (d : Disk F) :
  main image_embedding read_bytes suffix_lower save_image fit_predict
       iter_folder iter_csv args dir = Saved d dir' ->
  exists (emb : matrix F) (m : list Meta),
    d = mkDisk (Some emb) (Some m)
    /\ (1 <= nrows emb)%nat
    /\ length m = nrows emb
    /\ ensure_loaded d INDEX0
       = (mkActorIndex true (Some (normalize_rows emb)) (Some m), Ok tt)
    /\ forall (q : vec F) (k : Z),
         length q = ncols emb -> 1 <= k ->
         exists top,
           snd (topk d INDEX0 q k) = Ok top
           /\ length top = Nat.min (Z.to_nat k) (nrows emb)
           /\ (1 <= length top)%nat.
Proof.
  unfold main.
  destruct (if given (dataset_dir args) then _ else _) as [[| g groups] |];
    try discriminate.
  destruct (compute_actor_vectors _ _ _ _ _ (g :: groups) _ dir)
    as [[[emb m] dir1] | e] eqn:Hbuild; [| discriminate].
  intros [= <- <-].
  pose proof (compute_actor_vectors_nonempty _ _ _ _ _ _ _ _ _ _ _ Hbuild) as Hne.
  destruct (compute_actor_vectors_parallel _ _ _ _ _ _ _ _ _ _ _ Hbuild) as (Hlen & _ & _).
  assert (Hload : ensure_loaded (mkDisk (Some emb) (Some m)) INDEX0
                  = (mkActorIndex true (Some (normalize_rows emb)) (Some m), Ok tt))
    by (apply ensure_loaded_valid; auto).
  exists emb, m. repeat split; auto.
  intros q k Hq Hk.
  set (s1 := mkActorIndex true (Some (normalize_rows emb)) (Some m)).
  assert (Htop : topk (mkDisk (Some emb) (Some m)) INDEX0 q k
                 = topk (mkDisk (Some emb) (Some m)) s1 q k).
  { unfold topk. rewrite Hload.
    now rewrite (ensure_loaded_cached (mkDisk (Some emb) (Some m)) s1 eq_refl). }
  rewrite Htop.
  rewrite (topk_of_loaded _ s1 (normalize_rows emb) q k (or_intror eq_refl) eq_refl Hq).
  rewrite py_take_nonneg by lia. simpl.
  eexists. split; [reflexivity |].
  assert (Hl : length (firstn (Z.to_nat k)
                 (argsort (map f_neg (map (fun r => dot r (normalize q))
                                          (rows (normalize_rows emb))))))
               = Nat.min (Z.to_nat k) (nrows emb)).
  { rewrite length_firstn, (Permutation_length (argsort_perm _)).
    rewrite length_seq, !length_map. fold (nrows (normalize_rows emb)).
    now rewrite nrows_normalize_rows. }
  rewrite length_map. simpl in Hl. rewrite Hl. split; [reflexivity | lia].
Qed.

Lemma saved_index_serves_witness :
  exists (emb : matrix R) (m : list Meta),
    (1 <= nrows emb)%nat /\ length m = nrows emb.
Proof.
  destruct (@saved_index_serves R R_ops R_laws sample_embedding sample_read
              sample_suffix sample_save no_sklearn sample_iter_folder sample_iter_csv
              (mkArgs (Some "photos") None 1) [] ["Ada.jpg"]
              (mkDisk (Some (Matrix 2 [normalize (mean_axis0 (Matrix 2 [[1; 0]%R]))]))
                      (Some [mkMeta (Some "Ada") (Some "Ada.jpg") None]))
              eq_refl) as (emb & m & _ & Hne & Hlen & _).
  exists emb, m. split; [exact Hne | exact Hlen].
Defined.

(** ** build_actor_index.py: [iter_folder] and [iter_csv] *)

(** What a dict built by appending holds: distinct keys, no empty list. *)
Lemma dict_get_append (mapping : list (string * list Path)) (k k' : string) (v : Path) :
  dict_get (dict_append mapping k v) k'
  = if String.eqb k' k
    then Some (match dict_get mapping k with Some vs => vs ++ [v] | None => [v] end)
    else dict_get mapping k'.
Proof.
  induction mapping as [| [k0 vs] rest IH]; simpl.
  - destruct (String.eqb k' k); reflexivity.
  - destruct (String.eqb k k0) eqn:E0; simpl.
    + apply String.eqb_eq in E0. subst k0.
      destruct (String.eqb k' k); reflexivity.
    + destruct (String.eqb k' k0) eqn:E1.
      * apply String.eqb_eq in E1. subst k0.
        rewrite String.eqb_sym, E0. reflexivity.
      * exact IH.
Qed.

Lemma dict_append_keys (mapping : list (string * list Path)) (k : string) (v : Path) :
  map fst (dict_append mapping k v)
  = if existsb (String.eqb k) (map fst mapping) then map fst mapping
    else map fst mapping ++ [k].
Proof.
  induction mapping as [| [k0 vs] rest IH]; simpl; [reflexivity |].
  destruct (String.eqb k k0); simpl; [reflexivity |].
  rewrite IH. destruct (existsb _ _); reflexivity.
Qed.

Lemma dict_append_NoDup (mapping : list (string * list Path)) (k : string) (v : Path) :
  NoDup (map fst mapping) -> NoDup (map fst (dict_append mapping k v)).
Proof.
  intros Hn. rewrite dict_append_keys.
  destruct (existsb (String.eqb k) (map fst mapping)) eqn:E; [exact Hn |].
  apply NoDup_app; [exact Hn | repeat constructor; intros [] |].
  intros x Hx [Hk | []]. subst x.
  assert (existsb (String.eqb k) (map fst mapping) = true); [| congruence].
  apply existsb_exists. exists k. split; [exact Hx | apply String.eqb_refl].
Qed.

Lemma dict_append_nonempty (mapping : list (string * list Path)) (k : string) (v : Path) :
  Forall (fun g => snd g <> []) mapping ->
  Forall (fun g => snd g <> []) (dict_append mapping k v).
Proof.
  induction 1 as [| [k0 vs] rest Hg Hrest IH]; simpl.
  - constructor; [discriminate | constructor].
  - destruct (String.eqb k k0).
    + constructor; [| exact Hrest].
      simpl. intros H. now apply app_eq_nil in H as [_ H].
    + constructor; assumption.
Qed.

(** A dict well formed in both respects. *)
Lemma dict_append_stream (stream : list (string * Path)) :
  forall mapping,
    NoDup (map fst mapping) ->
    Forall (fun g => snd g <> []) mapping ->
    let built := fold_left (fun mp kv => dict_append mp (fst kv) (snd kv)) stream mapping in
    NoDup (map fst built)
    /\ Forall (fun g => snd g <> []) built
    /\ forall k,
        dict_get built k
        = match dict_get mapping k,
                map snd (filter (fun kv => String.eqb k (fst kv)) stream) with
          | Some vs, new => Some (vs ++ new)
          | None, [] => None
          | None, new => Some new
          end.
Proof.
  induction stream as [| [k0 v0] stream IH]; intros mapping Hn Hne; simpl.
  - split; [exact Hn |]. split; [exact Hne |]. intros k.
    destruct (dict_get mapping k); [now rewrite app_nil_r | reflexivity].
  - destruct (IH (dict_append mapping k0 v0) (dict_append_NoDup _ _ _ Hn)
                 (dict_append_nonempty _ _ _ Hne)) as (H1 & H2 & H3).
    split; [exact H1 |]. split; [exact H2 |]. intros k.
    rewrite H3, dict_get_append.
    destruct (String.eqb k k0) eqn:E; simpl.
    + apply String.eqb_eq in E. subst k0.
      destruct (dict_get mapping k) as [vs |]; [now rewrite <- app_assoc | reflexivity].
    + reflexivity.
Qed.

Section IngestFacts.
Variable suffix_lower : Path -> string.
Variable subdirs : Path -> list (string * list Path).
Variable csv_rows : Path -> list (string * string).
Variable strip : string -> string.
Variable resolve : string -> Path.
Variable path_exists : Path -> bool.

(** The appends [iter_folder] performs, in order. *)
Lemma scan_dirs_stream (dirs : list (string * list Path)) :
  forall mapping,
    fold_left (scan_dir suffix_lower) dirs mapping
    = fold_left (fun mp kv => dict_append mp (fst kv) (snd kv))
        (flat_map (fun actor_dir : string * list Path =>
                     map (fun img => (fst actor_dir, img))
                         (filter (fun img => allowed_suffix (suffix_lower img))
                                 (snd actor_dir))) dirs)
        mapping.
Proof.
  induction dirs as [| [nm entries] dirs IH]; intros mapping; simpl; [reflexivity |].
  rewrite fold_left_app, <- IH. f_equal.
  unfold scan_dir. simpl. revert mapping.
  induction entries as [| img entries IHe]; intros mapping; simpl; [reflexivity |].
  destruct (allowed_suffix (suffix_lower img)); simpl; apply IHe.
Qed.

Lemma folder_stream_filter (dirs : list (string * list Path)) (k : string) :
  map snd (filter (fun kv : string * Path => String.eqb k (fst kv))
             (flat_map (fun actor_dir : string * list Path =>
                          map (fun img => (fst actor_dir, img))
                              (filter (fun img => allowed_suffix (suffix_lower img))
                                      (snd actor_dir))) dirs))
  = flat_map (fun actor_dir : string * list Path =>
                if String.eqb k (fst actor_dir)
                then filter (fun img => allowed_suffix (suffix_lower img)) (snd actor_dir)
                else []) dirs.
Proof.
  induction dirs as [| [nm entries] dirs IH]; simpl; [reflexivity |].
  rewrite filter_app, map_app, IH. f_equal.
  generalize (filter (fun img => allowed_suffix (suffix_lower img)) entries) as imgs.
  intros imgs. simpl. destruct (String.eqb k nm) eqn:E.
  - induction imgs as [| i imgs IHi]; simpl; [reflexivity |].
    rewrite E. simpl. now rewrite IHi.
  - induction imgs as [| i imgs IHi]; simpl; [reflexivity |].
    rewrite E. exact IHi.
Qed.

Lemma csv_stream (rows : list (string * string)) :
  forall mapping,
    fold_left (fun mapping row =>
                 let name := strip (fst row) in
                 let img_path := resolve (snd row) in
                 if path_exists img_path then dict_append mapping name img_path
                 else mapping) rows mapping
    = fold_left (fun mp kv => dict_append mp (fst kv) (snd kv))
        (flat_map (fun row : string * string =>
                     if path_exists (resolve (snd row))
                     then [(strip (fst row), resolve (snd row))] else []) rows)
        mapping.
Proof.
  induction rows as [| row rows IH]; intros mapping; simpl; [reflexivity |].
  destruct (path_exists (resolve (snd row))); simpl; apply IH.
Qed.

Lemma csv_stream_filter (rows : list (string * string)) (k : string) :
  map snd (filter (fun kv : string * Path => String.eqb k (fst kv))
             (flat_map (fun row : string * string =>
                          if path_exists (resolve (snd row))
                          then [(strip (fst row), resolve (snd row))] else []) rows))
  = flat_map (fun row : string * string =>
                if String.eqb k (strip (fst row)) && path_exists (resolve (snd row))
                then [resolve (snd row)] else []) rows.
Proof.
  induction rows as [| row rows IH]; simpl; [reflexivity |].
  rewrite filter_app, map_app, IH. f_equal.
  destruct (path_exists (resolve (snd row))); simpl.
  - destruct (String.eqb k (strip (fst row))); reflexivity.
  - now rewrite andb_false_r.
Qed.

End IngestFacts.

(** X15.  [iter_folder] returns a dict with distinct keys and no empty
    list, and under each name exactly the entries below the directories of
    that name whose lower-cased suffix is .jpg, .jpeg, .png or .webp, in
    the order the scan meets them; a name without such an entry is not a
    key. *)
Theorem iter_folder_groups
        (suffix_lower : Path -> string) (subdirs : Path -> list (string * list Path))
        (dataset_dir : Path) :
  NoDup (map fst (iter_folder suffix_lower subdirs dataset_dir))
  /\ Forall (fun g => snd g <> []) (iter_folder suffix_lower subdirs dataset_dir)
  /\ forall name,
      dict_get (iter_folder suffix_lower subdirs dataset_dir) name
      = match folder_images suffix_lower subdirs dataset_dir name with
        | [] => None
        | images => Some images
        end.
Proof.
  unfold iter_folder, folder_images. rewrite scan_dirs_stream.
  destruct (dict_append_stream
              (flat_map (fun actor_dir : string * list Path =>
                           map (fun img => (fst actor_dir, img))
                               (filter (fun img => allowed_suffix (suffix_lower img))
                                       (snd actor_dir)))
                        (sorted_items (subdirs dataset_dir)))
              [] (NoDup_nil _) (Forall_nil _)) as (H1 & H2 & H3).
  split; [exact H1 |]. split; [exact H2 |]. intros name.
  rewrite H3, folder_stream_filter. reflexivity.
Qed.

(** X16.  [iter_csv] returns a dict with distinct keys and no empty list,
    and under each name exactly the resolved paths of the rows whose
    stripped name it is and whose file exists, in row order; rows with a
    missing file are dropped without an error. *)
Theorem iter_csv_groups
        (csv_rows : Path -> list (string * string)) (strip : string -> string)
        (resolve : string -> Path) (path_exists : Path -> bool) (csv_path : Path) :
  NoDup (map fst (iter_csv csv_rows strip resolve path_exists csv_path))
  /\ Forall (fun g => snd g <> []) (iter_csv csv_rows strip resolve path_exists csv_path)
  /\ forall name,
      dict_get (iter_csv csv_rows strip resolve path_exists csv_path) name
      = match csv_images csv_rows strip resolve path_exists csv_path name with
        | [] => None
        | images => Some images
        end.
Proof.
  unfold iter_csv, csv_images. rewrite csv_stream.
  destruct (dict_append_stream
              (flat_map (fun row : string * string =>
                           if path_exists (resolve (snd row))
                           then [(strip (fst row), resolve (snd row))] else [])
                        (csv_rows csv_path))
              [] (NoDup_nil _) (Forall_nil _)) as (H1 & H2 & H3).
  split; [exact H1 |]. split; [exact H2 |]. intros name.
  rewrite H3, csv_stream_filter. reflexivity.
Qed.

Lemma dict_append_not_nil (mapping : list (string * list Path)) (k : string) (v : Path) :
  dict_append mapping k v <> [].
Proof.
  destruct mapping as [| [k0 vs] rest]; simpl; [discriminate |].
  destruct (String.eqb k k0); discriminate.
Qed.

Lemma dict_stream_nil (stream : list (string * Path)) :
  forall mapping,
    fold_left (fun mp kv => dict_append mp (fst kv) (snd kv)) stream mapping = [] ->
    stream = [] /\ mapping = [].
Proof.
  induction stream as [| kv stream IH]; intros mapping; simpl; [auto |].
  intros H. apply IH in H as [_ H]. now apply dict_append_not_nil in H.
Qed.

Lemma iter_folder_nil_iff
      (suffix_lower : Path -> string) (subdirs : Path -> list (string * list Path))
      (dataset_dir : Path) :
  iter_folder suffix_lower subdirs dataset_dir = []
  <-> Forall (fun actor_dir =>
                filter (fun img => allowed_suffix (suffix_lower img)) (snd actor_dir) = [])
             (subdirs dataset_dir).
Proof.
  unfold iter_folder. rewrite scan_dirs_stream.
  assert (Hperm : forall P : string * list Path -> Prop,
             Forall P (sorted_items (subdirs dataset_dir))
             <-> Forall P (subdirs dataset_dir)).
  { intros P. rewrite !Forall_forall. split; intros H x Hx; apply H.
    - apply (Permutation_in _ (Permutation_sym (sorted_items_perm _))). exact Hx.
    - apply (Permutation_in _ (sorted_items_perm _)). exact Hx. }
  rewrite <- Hperm.
  generalize (sorted_items (subdirs dataset_dir)) as dirs. intros dirs. split.
  - intros H. apply dict_stream_nil in H as [H _].
    induction dirs as [| [nm entries] dirs IH]; [constructor |].
    simpl in H. apply app_eq_nil in H as [H1 H2].
    constructor; [| now apply IH]. simpl.
    destruct (filter _ entries); [reflexivity | discriminate].
  - intros H.
    replace (flat_map _ dirs) with (@nil (string * Path)); [reflexivity |].
    symmetry. induction H as [| [nm entries] dirs Hd _ IH]; simpl; [reflexivity |].
    simpl in Hd. now rewrite Hd, IH.
Qed.

(** X17.  In dataset-directory mode [main] stops with the no-images
    message exactly when no subdirectory holds an entry with an allowed
    suffix; subdirectories without images are otherwise passed over. *)
Theorem main_without_images
        {F : Type} {ops : NumpyOps F}
        (image_embedding : list byte -> result (vec F))
        (read_bytes : Path -> result (list byte))
        (suffix_lower : Path -> string) (save_image : Path -> bool)
        (fit_predict : Z -> matrix F -> result (list nat))
        (subdirs : Path -> list (string * list Path))
        (iter_csv : Path -> list (string * list Path))
        (ds : string) (csv_arg : option string) (clusters : Z) (dir : images_dir) :
  ds <> EmptyString ->
  (main image_embedding read_bytes suffix_lower save_image fit_predict
        (iter_folder suffix_lower subdirs) iter_csv
        (mkArgs (Some ds) csv_arg clusters) dir
   = SystemExit no_images_error
   <-> Forall (fun actor_dir =>
                 filter (fun img => allowed_suffix (suffix_lower img)) (snd actor_dir) = [])
              (subdirs ds)).
Proof.
  intros Hds. rewrite <- iter_folder_nil_iff. unfold main. simpl.
  replace (String.eqb ds EmptyString) with false
    by (symmetry; now apply String.eqb_neq).
  simpl. destruct (iter_folder suffix_lower subdirs ds) as [| g groups].
  - split; reflexivity.
  - split; [| discriminate].
    destruct (compute_actor_vectors _ _ _ _ _ _ _ _) as [[[? ?] ?] | ?]; discriminate.
Qed.

Lemma main_without_images_witness :
  main sample_embedding sample_read sample_suffix_of sample_save no_sklearn
       (iter_folder sample_suffix_of no_image_subdirs) sample_iter_csv
       (mkArgs (Some "photos") None 1) []
  = SystemExit no_images_error.
Proof.
  apply (@main_without_images R R_ops); [discriminate |].
  repeat constructor.
Defined.

(** ** services/embeddings.py and services/face_preprocess.py *)

Section EmbeddingFacts.
Context {F : Type} {ops : NumpyOps F}.
Variables Image Face Detector : Type.
Variable insightface_available : bool.
Variable make_detector : result Detector.
Variable detect : Detector -> Image -> result (list Face).
Variable aligned_chip : Detector -> Image -> result Image.
Variable bbox : Face -> F * F * F * F.
Variable f_int : F -> Z.
Variable width : Image -> Z.
Variable height : Image -> Z.
Variable crop : Image -> Z * Z * Z * Z -> result Image.
Variable get_clip : result unit.
Variable image_open : list byte -> result Image.
Variable is_rgb : Image -> bool.
Variable convert_rgb : Image -> Image.
Variable image_features : Image -> result (vec F).

Lemma hook_without_face
      (hook : Image -> result (option Image)) (img_bytes : list byte) :
  (forall image, hook image = Ok None \/ exists e, hook image = Raise e) ->
  image_embedding_of get_clip image_open is_rgb convert_rgb image_features
                     (Some hook) img_bytes
  = image_embedding_of get_clip image_open is_rgb convert_rgb image_features
                       None img_bytes.
Proof.
  intros Hhook. unfold image_embedding_of.
  destruct get_clip; [| reflexivity].
  destruct (_load_image image_open is_rgb convert_rgb img_bytes) as [image |];
    [| reflexivity].
  destruct (Hhook image) as [-> | [e ->]]; reflexivity.
Qed.

Lemma preprocess_face_none (image : Image) :
  insightface_available = false
  \/ (exists e, make_detector = Raise e)
  \/ (forall app, detect app image = Ok [] \/ exists e, detect app image = Raise e) ->
  preprocess_face insightface_available make_detector detect aligned_chip bbox f_int
                  width height crop image = Ok None
  \/ exists e,
      preprocess_face insightface_available make_detector detect aligned_chip bbox f_int
                      width height crop image = Raise e.
Proof.
  unfold preprocess_face, _get_detector.
  intros [-> | [[e He] | Hdet]]; [now left | |].
  - destruct insightface_available; simpl; [| now left]. rewrite He. right. eauto.
  - destruct insightface_available; simpl; [| now left].
    destruct make_detector as [app | e]; [| right; eauto].
    destruct (Hdet app) as [-> | [e ->]]; [now left | right; eauto].
Qed.

End EmbeddingFacts.

(** X18.  Face preprocessing is best effort: when insightface is not
    installed, or its detector cannot be built, or detection finds no face
    or raises, [image_embedding] returns what it returns without any face
    preprocessing, the embedding of the full image (or the same
    exception). *)
Theorem no_face_embeds_full_image
        {F : Type} {ops : NumpyOps F} (Image Face Detector : Type)
        (insightface_available : bool) (make_detector : result Detector)
        (detect : Detector -> Image -> result (list Face))
        (aligned_chip : Detector -> Image -> result Image)
        (bbox : Face -> F * F * F * F) (f_int : F -> Z)
        (width height : Image -> Z) (crop : Image -> Z * Z * Z * Z -> result Image)
        (get_clip : result unit) (image_open : list byte -> result Image)
        (is_rgb : Image -> bool) (convert_rgb : Image -> Image)
        (image_features : Image -> result (vec F)) (img_bytes : list byte) :
  insightface_available = false
  \/ (exists e, make_detector = Raise e)
  \/ (forall app image, detect app image = Ok [] \/ exists e, detect app image = Raise e) ->
  image_embedding_of get_clip image_open is_rgb convert_rgb image_features
    (Some (preprocess_face insightface_available make_detector detect aligned_chip
                           bbox f_int width height crop))
    img_bytes
  = image_embedding_of get_clip image_open is_rgb convert_rgb image_features
                       None img_bytes.
Proof.
  intros Hcase. apply hook_without_face. intros image.
  apply preprocess_face_none.
  destruct Hcase as [H | [H | H]]; auto.
Qed.

Lemma no_face_embeds_full_image_witness :
  sample_image_embedding (Some sample_hook) [x00]
  = sample_image_embedding None [x00].
Proof.
  exact (@no_face_embeds_full_image R R_ops (list byte) unit unit
           false (Ok tt) (fun _ _ => Ok []) (fun _ image => Ok image)
           (fun _ => (0, 0, 0, 0)%R) (fun _ => 0) (fun _ => 0) (fun _ => 0)
           (fun image _ => Ok image) (Ok tt) sample_open (fun _ => true)
           (fun image => image) sample_features [x00] (or_introl eq_refl)).
Defined.

Section UnitNorm.
Local Open Scope R_scope.

Lemma norm_unit_scale (feats : vec R) : norm feats <> 0 -> norm (unit_scale feats) = 1.
Proof.
  intros Hn. unfold unit_scale. unfold norm at 1.
  change f_sqrt with sqrt.
  change (fun x : R => f_div x (norm feats)) with (fun x : R => x / norm feats).
  rewrite sum_sq_scale by exact Hn.
  rewrite <- (norm_sq feats).
  replace (norm feats * norm feats / (norm feats * norm feats)) with 1
    by (field; exact Hn).
  apply sqrt_1.
Qed.

End UnitNorm.

(** X19.  In exact real arithmetic, whenever the encoder's features are
    not the zero vector, the vector [image_embedding] returns has L2 norm
    1 and the dimension of the features, with or without face
    preprocessing. *)
Theorem image_embedding_unit_norm
        (Image : Type) (get_clip : result unit)
        (image_open : list byte -> result Image)
        (is_rgb : Image -> bool) (convert_rgb : Image -> Image)
        (image_features : Image -> result (vec R))
        (face_hook : option (Image -> result (option Image)))
        (D : nat) (img_bytes : list byte) (emb : vec R) :
  (forall image feats,
      image_features image = Ok feats -> length feats = D /\ norm feats <> 0%R) ->
  image_embedding_of get_clip image_open is_rgb convert_rgb image_features
                     face_hook img_bytes = Ok emb ->
  norm emb = 1%R /\ length emb = D.
Proof.
  intros Hfeat. unfold image_embedding_of.
  destruct get_clip; [| discriminate].
  destruct (_load_image image_open is_rgb convert_rgb img_bytes) as [image |];
    [| discriminate].
  match goal with |- context [image_features ?im] =>
    destruct (image_features im) as [feats |] eqn:Hf end; [| discriminate].
  intros [= <-]. destruct (Hfeat _ _ Hf) as [Hlen Hn].
  split; [now apply norm_unit_scale |].
  unfold unit_scale. now rewrite length_map.
Qed.

Lemma image_embedding_unit_norm_witness :
  norm (unit_scale [3; 4]%R) = 1%R /\ length (unit_scale [3; 4]%R) = 2%nat.
Proof.
  assert (Hn : norm [3; 4]%R = 5%R).
  { unfold norm. rewrite !sum_sq_cons, sum_sq_nil. change f_sqrt with sqrt.
    replace (3 * 3 + (4 * 4 + 0))%R with (5 * 5)%R by lra.
    apply sqrt_square. lra. }
  apply (@image_embedding_unit_norm (list byte) (Ok tt) sample_open (fun _ => true)
           (fun image => image) sample_features None 2 [x00]).
  - intros image feats [= <-]. split; [reflexivity | rewrite Hn; lra].
  - reflexivity.
Defined.

Section SortDescendingFacts.
Variable A K : Type.
Variable leb : K -> K -> bool.
Variable key : A -> K.
Hypothesis leb_total : forall a b, leb a b = true \/ leb b a = true.
Hypothesis leb_trans : forall a b c, leb a b = true -> leb b c = true -> leb a c = true.





End SortDescendingFacts.



(** X21.  An upload that cannot be opened as an image is answered before
    the index is looked at: with the CLIP model loaded, [match_actors]
    returns status 400 carrying the decoder's message and leaves the index
    untouched, whether or not an index has been built; the batch handler
    records the same failure as that file's error item. *)
Theorem undecodable_upload_is_400
        {F : Type} {ops : NumpyOps F} (Image : Type)
        (image_open : list byte -> result Image)
        (is_rgb : Image -> bool) (convert_rgb : Image -> Image)
        (image_features : Image -> result (vec F))
        (face_hook : option (Image -> result (option Image)))
        (d : Disk F) (INDEX : ActorIndex F) (file : UploadFile) (top_k : Z) (e : exn) :
  not_an_image file = false ->
  too_large (contents file) = false ->
  image_open (contents file) = Raise e ->
  match_actors (image_embedding_of (Ok tt) image_open is_rgb convert_rgb
                                   image_features face_hook) d INDEX file top_k
  = (INDEX, HTTPException 400 (String.append "이미지 처리 실패: " (exn_msg e)))
  /\ (is_file_not_found e = false ->
      match_actors_batch (image_embedding_of (Ok tt) image_open is_rgb convert_rgb
                                             image_features face_hook)
                         d INDEX [file] top_k
      = (INDEX, Return [ErrorItem (filename file)
                          (String.append "처리 실패: " (exn_msg e))])).
Proof.
  intros Himg Hsize Hopen.
  assert (Hemb : image_embedding_of (Ok tt) image_open is_rgb convert_rgb
                                    image_features face_hook (contents file) = Raise e).
  { unfold image_embedding_of, _load_image. now rewrite Hopen. }
  split.
  - unfold match_actors. rewrite Himg, Hsize, Hemb. reflexivity.
  - intros Hfnf. unfold match_actors_batch, batch_loop, batch_try.
    rewrite Himg, Hsize, Hemb, Hfnf. reflexivity.
Qed.

Lemma undecodable_upload_is_400_witness :
  status (snd (match_actors (sample_image_embedding None) empty_disk INDEX0
                 (mkUploadFile (Some "image/png") (Some "empty.png") []) 3)) = 400.
Proof.
  pose proof (@undecodable_upload_is_400 R R_ops (list byte) sample_open (fun _ => true)
                (fun image => image) sample_features None empty_disk INDEX0
                (mkUploadFile (Some "image/png") (Some "empty.png") []) 3
                (Exn OtherException "cannot identify image file")
                eq_refl eq_refl eq_refl) as [Hsingle _].
  unfold sample_image_embedding. rewrite Hsingle. reflexivity.
Defined.

(** ** search.py: the range of the scores *)

Section ScoreRange.
Local Open Scope R_scope.




End ScoreRange.



(** ** build_actor_index.py: how many rows an entity can give *)

Section ClusterBounds.
Context {F : Type} {ops : NumpyOps F}.
Variable image_embedding : list byte -> result (vec F).
Variable read_bytes : Path -> result (list byte).
Variable suffix_lower : Path -> string.
Variable save_image : Path -> bool.
Variable fit_predict : Z -> matrix F -> result (list nat).




End ClusterBounds.


